(** * Actual-vs-predicted plotter hued with LCZ classes: a shallow embedding

    The development follows the two utility modules of the repository and
    the script that uses them:
    - [lcz_utils]: [convert_LCZ_num_to_class], [load_LCZ_class_palette] and
      [get_LCZ_order] of [utilities/lcz_utils.py];
    - [plot_utils]: [plot_pred_vs_actual] of [utilities/plot_utils.py], as the
      sequence of calls it issues to the charting libraries;
    - [example]: the module body of [example.py].

    Python exceptions are values of [exn]; a function that may raise returns
    a [result]. *)

From Stdlib Require Import ZArith Floats DecimalString.
From stdpp Require Import base option list strings.

Set Warnings "-inexact-float".

Open Scope Z_scope.

(** ** Exceptions and results *)

Inductive exn : Set :=
| FileNotFoundError
| JSONDecodeError
| ValueError
| UnboundLocalError
| KeyError
| TypeError.

Inductive result (A : Type) : Type :=
| Ok (a : A)
| Raise (e : exn).
Arguments Ok {A} a.
Arguments Raise {A} e.

Global Instance exn_eq_dec : EqDecision exn.
Proof. solve_decision. Defined.

Global Instance result_ret : MRet result := fun _ a => Ok a.
Global Instance result_bind : MBind result := fun _ _ f m =>
  match m with
  | Ok a => f a
  | Raise e => Raise e
  end.

(** ** Python dictionaries

    A [dict] keeps its items in insertion order; assigning to a key that is
    already present replaces the value and leaves the position alone. *)

Section dict.
Context {K V : Type} `{EqDecision K}.

Definition dict := list (K * V).

Fixpoint dict_set (k : K) (v : V) (d : dict) : dict :=
  match d with
  | [] => [(k, v)]
  | (k', v') :: d' =>
      if decide (k = k') then (k', v) :: d' else (k', v') :: dict_set k v d'
  end.

Fixpoint dict_get (k : K) (d : dict) : option V :=
  match d with
  | [] => None
  | (k', v') :: d' => if decide (k = k') then Some v' else dict_get k d'
  end.

Definition dict_keys (d : dict) : list K := d.*1.
Definition dict_values (d : dict) : list V := d.*2.
Definition dict_items (d : dict) : list (K * V) := d.

(** [dict(pairs)]: the items are assigned from left to right. *)
Definition dict_of_pairs (ps : list (K * V)) : dict :=
  foldl (fun d kv => dict_set kv.1 kv.2 d) [] ps.
End dict.
Arguments dict : clear implicits.

(** ** Values held by a pandas Series or by a Python list *)

Inductive value : Set :=
| VInt (n : Z)
| VStr (s : string)
| VNaN.

Global Instance value_eq_dec : EqDecision value.
Proof. solve_decision. Defined.

(** Python's [==] on these values: NaN is equal to nothing, an integer is
    never equal to a string. *)
Definition py_eq (a b : value) : bool :=
  match a, b with
  | VInt m, VInt n => bool_decide (m = n)
  | VStr s, VStr t => bool_decide (s = t)
  | _, _ => false
  end.

Abbreviation Series := (list value).

(** [Series.unique()]: the distinct values in order of first appearance.  The
    hash table of pandas holds the values seen so far and keeps a single
    missing value. *)
Fixpoint unique_from (seen : list value) (s : Series) : list value :=
  match s with
  | [] => []
  | x :: s' =>
      if decide (x ∈ seen) then unique_from seen s'
      else x :: unique_from (x :: seen) s'
  end.

Definition unique (s : Series) : list value := unique_from [] s.

(** [x in arr] on a numpy array is [(arr == x).any()]. *)
Definition np_contains (x : value) (arr : list value) : bool :=
  existsb (fun y => py_eq y x) arr.

(** ** The JSON resources *)

(** What [open] followed by [json.load] finds at a path: no file, a file that
    is not JSON, or an object whose members are given in file order with their
    key texts. *)
Inductive json_file : Type :=
| NoSuchFile
| NotJSON
| JSONObject (members : list (string * string)).

Module lcz_utils.
Section with_int.

(** Python's built-in [int] applied to a key text; [None] when it raises
    [ValueError]. *)
Variable int : string -> option Z.

(** [lambda dct: {int(key): value for key, value in dct.items()}] *)
Definition object_hook (dct : dict string string) : result (dict Z string) :=
  foldl (fun acc kv =>
           d ← acc;
           match int kv.1 with
           | Some n => Ok (dict_set n kv.2 d)
           | None => Raise ValueError
           end)
        (Ok []) (dict_items dct).

(** [with open(mapper_file_path, "r") as file: json.load(file, object_hook=...)] *)
Definition load_mapper (file : json_file) : result (dict Z string) :=
  match file with
  | NoSuchFile => Raise FileNotFoundError
  | NotJSON => Raise JSONDecodeError
  | JSONObject members => object_hook (dict_of_pairs members)
  end.

(** [Series.map(d)] for a dictionary [d]: a value that is no key of [d]
    becomes NaN. *)
Definition Series_map (d : dict Z string) (s : Series) : Series :=
  (fun x =>
     match x with
     | VInt n => match dict_get n d with Some c => VStr c | None => VNaN end
     | _ => VNaN
     end) <$> s.

Definition convert_LCZ_num_to_class
    (LCZ_num : Series) (mapper_file : json_file) : result Series :=
  LCZ_num_to_class ← load_mapper mapper_file;
  let LCZ_class := Series_map LCZ_num_to_class LCZ_num in
  Ok LCZ_class.

Definition load_LCZ_class_palette (mapper_file : json_file)
  : result (dict string string) :=
  match mapper_file with
  | NoSuchFile => Raise FileNotFoundError
  | NotJSON => Raise JSONDecodeError
  | JSONObject members => Ok (dict_of_pairs members)
  end.

(** The [match LCZ_kind] statement.  [LCZ_ref] is bound in the first two
    cases only: the last case builds a [ValueError] and drops it. *)
Definition LCZ_ref_of (LCZ_num_to_class : dict Z string) (LCZ_kind : string)
  : option (list value) :=
  if decide (LCZ_kind = "num") then Some (VInt <$> dict_keys LCZ_num_to_class)
  else if decide (LCZ_kind = "class") then Some (VStr <$> dict_values LCZ_num_to_class)
  else None.

Definition get_LCZ_order
    (LCZ : Series) (mapper_file : json_file) (LCZ_kind : string)
  : result (list value) :=
  LCZ_num_to_class ← load_mapper mapper_file;
  let LCZ_unique := unique LCZ in
  match LCZ_ref_of LCZ_num_to_class LCZ_kind with
  | None => Raise UnboundLocalError
  | Some LCZ_ref =>
      let LCZ_order := filter (fun x => np_contains x LCZ_unique) LCZ_ref in
      Ok LCZ_order
  end.

End with_int.
End lcz_utils.

(** A reader of plain decimal key texts (digits with an optional minus
    sign), on which it agrees with Python's [int]. *)
Definition decimal_int (s : string) : option Z :=
  Z.of_int <$> DecimalString.NilZero.int_of_string s.

(** ** Rendering: the calls issued to matplotlib and seaborn *)

(** A column of a DataFrame, by its dtype: [float64], [int64], or [object]
    with strings and missing values.  An integer of an [Int64] column stands
    for the [int64] it wraps to. *)
Inductive column : Type :=
| Numeric (xs : list float)
| Int64 (xs : list Z)
| Labels (xs : list (option string)).

(** What a reduction of a numeric column or Series returns: a numpy scalar,
    [int64] or [float64]. *)
Inductive scalar : Type :=
| SInt (n : Z)
| SFloat (x : float).

(** Arithmetic in [int64] wraps around. *)
Definition wrap64 (z : Z) : Z := (z + 2 ^ 63) `mod` 2 ^ 64 - 2 ^ 63.

(** The conversion of an [int64] to [float64] rounds to the nearest binary64
    number, ties to even. *)
Definition float_of_int64 (n : Z) : float :=
  SF2Prim (binary_normalize prec emax n 0 false).

Definition to_float (s : scalar) : float :=
  match s with
  | SInt n => float_of_int64 n
  | SFloat x => x
  end.

(** [a - b] on numpy scalars: in [int64] when both are, else in [float64]. *)
Definition scalar_sub (a b : scalar) : scalar :=
  match a, b with
  | SInt m, SInt n => SInt (wrap64 (m - n))
  | _, _ => SFloat (to_float a - to_float b)
  end.

(** The object column that holds a Series of labels and missing values, as
    the one returned by [Series.map] with a dictionary of strings is. *)
Definition series_labels (s : Series) : list (option string) :=
  (fun v => match v with VStr c => Some c | _ => None end) <$> s.

Definition DataFrame := dict string column.

(** The reductions [min] and [max] of pandas skip missing values; with
    nothing left the answer is NaN. *)
Definition fmin (a b : float) : float := if PrimFloat.ltb b a then b else a.
Definition fmax (a b : float) : float := if PrimFloat.ltb a b then b else a.

Definition skipna (xs : list float) : list float :=
  List.filter (fun x => negb (PrimFloat.is_nan x)) xs.

Definition nan_reduce (op : float -> float -> float) (xs : list float) : float :=
  match skipna xs with
  | [] => PrimFloat.nan
  | x :: r => foldl op x r
  end.

Definition nanmin : list float -> float := nan_reduce fmin.
Definition nanmax : list float -> float := nan_reduce fmax.

(** The reduction of one column.  A column without rows reduces to NaN,
    whatever its dtype, and so does an object column that holds missing
    values only.  An object column that holds a string has no numeric range:
    the reductions and the subtraction of [plot_pred_vs_actual] end in
    [TypeError] before anything more is issued, and the model raises it
    here. *)
Definition column_reduce (zop : Z -> Z -> Z) (fred : list float -> float)
    (c : column) : result scalar :=
  match c with
  | Numeric xs => Ok (SFloat (fred xs))
  | Int64 xs =>
      match wrap64 <$> xs with
      | [] => Ok (SFloat PrimFloat.nan)
      | z :: zs => Ok (SInt (foldl zop z zs))
      end
  | Labels xs =>
      if forallb (fun o => if o is Some _ then false else true) xs
      then Ok (SFloat PrimFloat.nan)
      else Raise TypeError
  end.

(** The reduction of the Series of two column results: it has dtype [int64]
    when both results are integers and [float64] otherwise. *)
Definition series_reduce (zop : Z -> Z -> Z) (fred : list float -> float)
    (a b : scalar) : scalar :=
  match a, b with
  | SInt m, SInt n => SInt (zop m n)
  | _, _ => SFloat (fred [to_float a; to_float b])
  end.

(** [ax.set_xlim] and [ax.set_ylim] refuse limits that are NaN or infinite
    with [ValueError]. *)
Definition validate_limits (low high : float) : result unit :=
  if PrimFloat.is_finite low && PrimFloat.is_finite high then Ok tt
  else Raise ValueError.

(** One call to the charting libraries.  Keyword arguments that are
    constants of the source are left out. *)
Inductive call : Type :=
| rc_context_enter
| plt_figure (width height : Z)
| plt_axes
| plt_title (label : string)
| sns_scatterplot (data : DataFrame) (x y : string) (hue : option string)
    (hue_order : option (list value)) (palette : option (dict string string))
| ax_text (s : string)
| ax_set_xlim (left right : float)
| ax_set_ylim (bottom top : float)
| plt_axline (x1 y1 slope : Z)
| ax_set_xlabel (label : string)
| ax_set_ylabel (label : string)
| ax_minorticks_on
| ax_set_aspect (aspect : string)
| ax_grid (which linestyle : string)
| plt_legend (title : option string)
| plt_show
| rc_context_exit.

(** A rendering computation threads the calls made so far and may raise. *)
Definition Render (A : Type) : Type := list call -> result A * list call.

Global Instance Render_ret : MRet Render := fun _ a t => (Ok a, t).
Global Instance Render_bind : MBind Render := fun _ _ f m t =>
  match m t with
  | (Ok a, t') => f a t'
  | (Raise e, t') => (Raise e, t')
  end.

Definition issue (c : call) : Render unit := fun t => (Ok tt, t ++ [c]).
Definition lift {A} (r : result A) : Render A := fun t => (r, t).

(** [with plt.rc_context(...): body]: the settings are restored on the way
    out, whether or not the body raised. *)
Definition with_rc_context {A} (body : Render A) : Render A := fun t =>
  let '(r, t') := body (t ++ [rc_context_enter]) in (r, t' ++ [rc_context_exit]).

Definition run {A} (m : Render A) : result A * list call := m [].

Definition newline : string := String (Ascii.ascii_of_nat 10) EmptyString.

Module plot_utils.
Section with_libraries.

(** The format specification [:.3f] of Python. *)
Variable format_3f : float -> string.

(** What [sns.scatterplot] answers to its arguments: it draws, or raises. *)
Variable scatterplot :
  DataFrame -> string -> string -> option string ->
  option (list value) -> option (dict string string) -> result unit.

(** [df[[col_actual, col_pred]]] followed by a reduction of each column and
    a reduction of the two outcomes.  Selecting a column that the frame lacks
    raises [KeyError]. *)
Definition frame_reduce (zop : Z -> Z -> Z) (fred : list float -> float)
    (df : DataFrame) (col_actual col_pred : string) : result scalar :=
  match dict_get col_actual df, dict_get col_pred df with
  | Some actual, Some predicted =>
      a ← column_reduce zop fred actual;
      p ← column_reduce zop fred predicted;
      Ok (series_reduce zop fred a p)
  | _, _ => Raise KeyError
  end.

(** [df[[col_actual, col_pred]].min().min()] and [.max().max()] *)
Definition frame_min : DataFrame -> string -> string -> result scalar :=
  frame_reduce Z.min nanmin.
Definition frame_max : DataFrame -> string -> string -> result scalar :=
  frame_reduce Z.max nanmax.

Definition scores_text (scores : dict string float) : string :=
  String.concat ""
    ((fun kv => kv.1 +:+ " $=$ $" +:+ format_3f kv.2 +:+ "$" +:+ newline)
       <$> dict_items scores).

Definition plot_pred_vs_actual
    (df : DataFrame) (col_actual col_pred : string)
    (col_hue : option string) (hue_title_fancy : option string)
    (hue_order : option (list value))
    (hue_palette : option (dict string string))
    (target_title_fancy target_units_title_fancy : string)
    (scores : option (dict string float))
    (use_hue print_scores : bool) : Render unit :=
  with_rc_context (
    issue (plt_figure 9 7);;
    issue plt_axes;;
    issue (plt_title ("Actual and predicted " +:+ target_title_fancy));;
    let hue := if use_hue then col_hue else None in
    let order := if use_hue then hue_order else None in
    let palette := if use_hue then hue_palette else None in
    lift (scatterplot df col_actual col_pred hue order palette);;
    issue (sns_scatterplot df col_actual col_pred hue order palette);;
    (match print_scores, scores with
     | true, Some sc => issue (ax_text (scores_text sc))
     | _, _ => mret tt
     end);;
    x_min ← lift (frame_min df col_actual col_pred);
    x_max ← lift (frame_max df col_actual col_pred);
    let Delta_x := scalar_sub x_max x_min in
    let x_min := (to_float x_min - 0.05 * to_float Delta_x)%float in
    let x_max := (to_float x_max + 0.05 * to_float Delta_x)%float in
    let y_min := x_min in
    let y_max := x_max in
    lift (validate_limits x_min x_max);;
    issue (ax_set_xlim x_min x_max);;
    lift (validate_limits y_min y_max);;
    issue (ax_set_ylim y_min y_max);;
    issue (plt_axline 0 0 1);;
    issue (ax_set_xlabel ("Actual " +:+ target_title_fancy +:+ " $ \, [$ "
                            +:+ target_units_title_fancy +:+ " $]$"));;
    issue (ax_set_ylabel ("Predicted " +:+ target_title_fancy +:+ " $ \, [$ "
                            +:+ target_units_title_fancy +:+ " $]$"));;
    issue ax_minorticks_on;;
    issue (ax_set_aspect "equal");;
    issue (ax_grid "major" "solid");;
    issue (ax_grid "minor" "dotted");;
    (if use_hue then issue (plt_legend hue_title_fancy) else mret tt);;
    issue plt_show).

End with_libraries.
End plot_utils.

(** A scatter-plot stand-in that checks the columns it is given and nothing
    else. *)
Definition scatterplot_checking_columns
    (df : DataFrame) (x y : string) (hue : option string)
    (_ : option (list value)) (_ : option (dict string string)) : result unit :=
  match dict_get x df, dict_get y df with
  | Some _, Some _ =>
      match hue with
      | None => Ok tt
      | Some h => if dict_get h df is Some _ then Ok tt else Raise ValueError
      end
  | _, _ => Raise ValueError
  end.

(** ** Auxiliary notions used by the statements *)

(** A list of numbers without missing values. *)
Definition no_nan (xs : list float) : Prop :=
  Forall (fun x => PrimFloat.is_nan x = false) xs.

(** The contract of [sns.scatterplot] that [plot_pred_vs_actual] documents
    under "Raises": a column name that the DataFrame lacks is answered with
    [ValueError]. *)
Definition raises_on_missing_column
    (scatterplot : DataFrame -> string -> string -> option string ->
                   option (list value) -> option (dict string string) -> result unit)
  : Prop :=
  ∀ df x y hue hue_order palette,
    x ∉ dict_keys df ∨ y ∉ dict_keys df ∨ (∃ h, hue = Some h ∧ h ∉ dict_keys df) →
    scatterplot df x y hue hue_order palette = Raise ValueError.

(** Calls that draw, as opposed to the two that set and restore the
    configuration. *)
Definition is_rendering (c : call) : bool :=
  match c with
  | rc_context_enter | rc_context_exit => false
  | _ => true
  end.







(** ** Concrete inputs *)

(** The table and the codes of the specification's example. *)
Definition abc_file : json_file := JSONObject [("1", "A"); ("2", "B"); ("3", "C")].
Definition abc_table : dict Z string := [(1, "A"); (2, "B"); (3, "C")].

(** A mapper in which two codes carry the same label. *)
Definition aa_file : json_file := JSONObject [("1", "A"); ("2", "A")].

(** A frame like the one of [example.py], and the same frame without its
    column of actual values. *)
Definition example_df : DataFrame :=
  [("y_actual", Numeric [100; 200; 310]%float);
   ("y_pred", Numeric [120; 250; 300]%float);
   ("LCZ", Labels [Some "A"; Some "B"; Some "A"])].

Definition df_without_actual : DataFrame :=
  [("y_pred", Numeric [120; 250; 300]%float);
   ("LCZ", Labels [Some "A"; Some "B"; Some "A"])].

(** Calls that write the regression scores. *)
Definition is_ax_text (c : call) : bool :=
  match c with
  | ax_text _ => true
  | _ => false
  end.

(** ** The script [example.py]

    The two JSON resources under [assets/json] are inputs of the script; the
    mapper is read twice, by [convert_LCZ_num_to_class] and by
    [get_LCZ_order], from the same path. *)

Module example.

(** [data["LCZ"]], the Series of the codes. *)
Definition LCZ_codes : Series :=
  [VInt 100100; VInt 100123; VInt 110200; VInt 100123;
   VInt 100456; VInt 100456; VInt 110700; VInt 110200].

Definition data : DataFrame :=
  [("y_actual", Int64 [284; 287; 291; 295; 298; 302; 304; 310]);
   ("y_pred", Int64 [285; 286; 290; 296; 300; 304; 305; 308]);
   ("LCZ", Int64 [100100; 100123; 110200; 100123; 100456; 100456; 110700; 110200])].

Definition scores : dict string float :=
  [("$R^2$", 0.832%float); ("$\mathrm{RMSE}$", 0.873%float)].

Section with_libraries.
Variable int : string -> option Z.
Variable format_3f : float -> string.
Variable scatterplot :
  DataFrame -> string -> string -> option string ->
  option (list value) -> option (dict string string) -> result unit.

Definition main (LCZ_num_to_class_json LCZ_class_to_palette_json : json_file)
  : Render unit :=
  LCZ ← lift (lcz_utils.convert_LCZ_num_to_class int LCZ_codes LCZ_num_to_class_json);
  let data := dict_set "LCZ" (Labels (series_labels LCZ)) data in
  LCZ_class_to_palette ←
    lift (lcz_utils.load_LCZ_class_palette LCZ_class_to_palette_json);
  hue_order ← lift (lcz_utils.get_LCZ_order int LCZ LCZ_num_to_class_json "class");
  plot_utils.plot_pred_vs_actual format_3f scatterplot
    data "y_actual" "y_pred" (Some "LCZ") (Some "$\mathrm{LCZ-Majority}$")
    (Some hue_order) (Some LCZ_class_to_palette) "" "" (Some scores) true true.

End with_libraries.
End example.

(** The decimal text of an integer, and a frame without rows. *)
Definition decimal_text (n : Z) : string :=
  DecimalString.NilZero.string_of_int (Z.to_int n).

Definition df_without_rows : DataFrame :=
  [("y_actual", Numeric []); ("y_pred", Numeric [])].



(** * Properties of the classification mapper *)

(** ** Dictionaries *)

Section dict_facts.
Context {K V : Type} `{EqDecision K}.
Implicit Types (d : dict K V) (k : K) (v : V).

Lemma dict_keys_set k v d :
  dict_keys (dict_set k v d) =
    if decide (k ∈ dict_keys d) then dict_keys d else dict_keys d ++ [k].
Proof.
  unfold dict_keys. induction d as [|[k' v'] d IH]; csimpl; [done |].
  destruct (decide (k = k')) as [->|Hne]; csimpl.
  - rewrite decide_True; [done | left].
  - rewrite IH. destruct (decide (k ∈ d.*1)) as [Hin|Hnin].
    + rewrite decide_True; [done | by right].
    + rewrite decide_False; [done |].
      intros [?|?]%elem_of_cons; done.
Qed.

Lemma dict_set_NoDup k v d :
  NoDup (dict_keys d) → NoDup (dict_keys (dict_set k v d)).
Proof.
  intros Hd. rewrite dict_keys_set. case_decide; [done |].
  apply NoDup_app. split_and!; [done | | apply NoDup_singleton].
  intros x Hx ->%list_elem_of_singleton. done.
Qed.

Lemma dict_get_None k d : dict_get k d = None ↔ k ∉ dict_keys d.
Proof.
  unfold dict_keys. induction d as [|[k' v'] d IH]; csimpl.
  - split; [intros _; apply not_elem_of_nil | done].
  - rewrite not_elem_of_cons. destruct (decide (k = k')); [| tauto].
    split; [done | by intros []].
Qed.

Lemma dict_get_is_Some k d : is_Some (dict_get k d) ↔ k ∈ dict_keys d.
Proof.
  rewrite <-not_eq_None_Some, dict_get_None.
  destruct (decide (k ∈ dict_keys d)); naive_solver.
Qed.

Lemma dict_get_Some_item k v d : dict_get k d = Some v → (k, v) ∈ dict_items d.
Proof.
  unfold dict_items. induction d as [|[k' v'] d IH]; simpl; [done |].
  case_decide; [intros [= ->]; subst; left | intros ?; right; auto].
Qed.

Lemma dict_of_pairs_NoDup (ps : list (K * V)) : NoDup (dict_keys (dict_of_pairs ps)).
Proof.
  unfold dict_of_pairs.
  assert (∀ d, NoDup (dict_keys d) →
               NoDup (dict_keys (foldl (fun d kv => dict_set kv.1 kv.2 d) d ps))) as Hgen.
  { induction ps as [|kv ps IH]; intros d Hd; simpl; [done |].
    apply IH, dict_set_NoDup, Hd. }
  apply Hgen, NoDup_nil_2.
Qed.
End dict_facts.

(** ** Membership tests *)

Lemma py_eq_eq a b : py_eq a b = true → a = b.
Proof.
  destruct a, b; simpl; try discriminate;
    intros ?%bool_decide_eq_true; congruence.
Qed.

Lemma py_eq_refl a : a ≠ VNaN → py_eq a a = true.
Proof. destruct a; simpl; intros; try done; by apply bool_decide_eq_true. Qed.

Lemma np_contains_true x arr : np_contains x arr = true ↔ x ≠ VNaN ∧ x ∈ arr.
Proof.
  unfold np_contains. rewrite existsb_exists. split.
  - intros (y & Hy%list_elem_of_In & Heq).
    assert (y = x) as Hyx by by apply py_eq_eq. subst y.
    split; [| done]. intros Hnan. rewrite Hnan in Heq. done.
  - intros [Hx Hin]. exists x. split; [by apply list_elem_of_In | by apply py_eq_refl].
Qed.

Lemma elem_of_unique_from x seen s :
  x ∈ unique_from seen s ↔ x ∈ s ∧ x ∉ seen.
Proof.
  revert seen. induction s as [|y s IH]; intros seen; simpl.
  - split; [by intros ?%elem_of_nil | by intros [?%elem_of_nil _]].
  - destruct (decide (y ∈ seen)) as [Hy|Hy].
    + rewrite IH, elem_of_cons. split; [tauto |].
      intros [[-> | ?] ?]; [done | tauto].
    + rewrite !elem_of_cons, IH, not_elem_of_cons.
      destruct (decide (x = y)) as [-> | ?]; tauto.
Qed.

Lemma elem_of_unique x s : x ∈ unique s ↔ x ∈ s.
Proof.
  unfold unique. rewrite elem_of_unique_from.
  split; [by intros [? _] | intros ?; split; [done | apply not_elem_of_nil]].
Qed.

Lemma unique_from_NoDup seen s : NoDup (unique_from seen s).
Proof.
  revert seen. induction s as [|y s IH]; intros seen; simpl; [apply NoDup_nil_2 |].
  case_decide; [apply IH |].
  apply NoDup_cons_2; [| apply IH].
  rewrite elem_of_unique_from, not_elem_of_cons. tauto.
Qed.

Lemma np_contains_unique x s : np_contains x (unique s) = np_contains x s.
Proof.
  apply eq_true_iff_eq. rewrite !np_contains_true, elem_of_unique. done.
Qed.

Lemma filter_ext_elem {A} (P Q : A → Prop)
    `{!∀ x, Decision (P x)} `{!∀ x, Decision (Q x)} (l : list A) :
  (∀ x, x ∈ l → P x ↔ Q x) → filter P l = filter Q l.
Proof.
  induction l as [|a l IH]; intros Hext; [done |].
  rewrite !filter_cons. rewrite IH by (intros; apply Hext; by right).
  destruct (decide (P a)) as [HP|HP], (decide (Q a)) as [HQ|HQ]; try done;
    exfalso; apply (Hext a) in HP || apply (Hext a) in HQ; try done; left.
Qed.

(** ** Loading the mapper *)

Section mapper_properties.
Variable int : string -> option Z.

Local Abbreviation load_mapper := (lcz_utils.load_mapper int).
Local Abbreviation convert_LCZ_num_to_class := (lcz_utils.convert_LCZ_num_to_class int).
Local Abbreviation get_LCZ_order := (lcz_utils.get_LCZ_order int).

(** The table read from a mapper file has pairwise distinct codes. *)
Lemma load_mapper_NoDup file T :
  load_mapper file = Ok T → NoDup (dict_keys T).
Proof.
  destruct file as [| |members]; simpl; try discriminate.
  unfold lcz_utils.object_hook, dict_items.
  generalize (dict_of_pairs members) as items.
  assert (∀ (items : list (string * string)) (acc : result (dict Z string)),
            (∀ d, acc = Ok d → NoDup (dict_keys d)) →
            foldl (fun acc kv =>
                     d ← acc;
                     match int kv.1 with
                     | Some n => Ok (dict_set n kv.2 d)
                     | None => Raise ValueError
                     end) acc items = Ok T →
            NoDup (dict_keys T)) as Hgen.
  { induction items as [|kv items IH]; intros acc Hacc; simpl; [by apply Hacc |].
    apply IH. intros d. destruct acc as [d0|e]; simpl; [| discriminate].
    destruct (int kv.1); [| discriminate].
    intros [= <-]. by apply dict_set_NoDup, Hacc. }
  intros items. apply Hgen. intros d [= <-]. apply NoDup_nil_2.
Qed.

(** [get_LCZ_order] on a readable mapper and a recognised kind: the
    reference values that occur in the input, in reference order. *)
Lemma get_LCZ_order_filter LCZ file T LCZ_kind LCZ_ref :
  load_mapper file = Ok T →
  lcz_utils.LCZ_ref_of T LCZ_kind = Some LCZ_ref →
  get_LCZ_order LCZ file LCZ_kind =
    Ok (filter (fun x => x ≠ VNaN ∧ x ∈ LCZ) LCZ_ref).
Proof.
  intros HT Href. unfold lcz_utils.get_LCZ_order. rewrite HT. simpl.
  rewrite Href. f_equal. apply filter_ext_elem. intros x _.
  rewrite Is_true_true, np_contains_true, elem_of_unique. done.
Qed.

Lemma LCZ_ref_of_recognised T LCZ_kind :
  LCZ_kind = "num" ∨ LCZ_kind = "class" →
  ∃ LCZ_ref, lcz_utils.LCZ_ref_of T LCZ_kind = Some LCZ_ref.
Proof. intros [-> | ->]; eexists; reflexivity. Qed.

Lemma LCZ_ref_of_class T :
  lcz_utils.LCZ_ref_of T "class" = Some (VStr <$> dict_values T).
Proof. reflexivity. Qed.

Lemma LCZ_ref_of_num T :
  lcz_utils.LCZ_ref_of T "num" = Some (VInt <$> dict_keys T).
Proof. reflexivity. Qed.

(** X7: for labels the result is a subsequence of the table's labels, it
    holds exactly the labels that occur in the input, and a label is
    repeated in it only if the table repeats it. *)
Lemma get_LCZ_order_class_subsequence LCZ file T :
  load_mapper file = Ok T →
  ∃ LCZ_order,
    get_LCZ_order LCZ file "class" = Ok LCZ_order ∧
    LCZ_order `sublist_of` (VStr <$> dict_values T) ∧
    (∀ x, x ∈ LCZ_order ↔ x ∈ (VStr <$> dict_values T) ∧ x ∈ LCZ) ∧
    (NoDup (dict_values T) → NoDup LCZ_order).
Proof.
  intros HT. eexists.
  split; [apply (get_LCZ_order_filter _ _ T _ _ HT (LCZ_ref_of_class T)) |].
  split_and!.
  - apply sublist_filter.
  - intros x. rewrite list_elem_of_filter. split; [tauto |].
    intros [Hx Hin]. split_and!; [| done | done].
    apply list_elem_of_fmap in Hx as (c & -> & _). done.
  - intros Hnd. apply NoDup_filter, NoDup_fmap_2; [| done].
    intros ?? [=]. done.
Qed.

(** For codes the result never repeats a code. *)
Lemma get_LCZ_order_num_NoDup LCZ file T LCZ_order :
  load_mapper file = Ok T →
  get_LCZ_order LCZ file "num" = Ok LCZ_order →
  NoDup LCZ_order ∧ LCZ_order `sublist_of` (VInt <$> dict_keys T).
Proof.
  intros HT. rewrite (get_LCZ_order_filter _ _ T _ _ HT (LCZ_ref_of_num T)).
  intros [= <-]. split; [| apply sublist_filter].
  apply NoDup_filter, NoDup_fmap_2; [intros ?? [=]; done |].
  by eapply load_mapper_NoDup.
Qed.

End mapper_properties.

(** ** The mapper's claims *)

Section mapper_claims.
Variable int : string -> option Z.

Local Abbreviation load_mapper := (lcz_utils.load_mapper int).
Local Abbreviation convert_LCZ_num_to_class := (lcz_utils.convert_LCZ_num_to_class int).
Local Abbreviation get_LCZ_order := (lcz_utils.get_LCZ_order int).

Lemma Series_map_lookup T (LCZ_num : Series) i :
  lcz_utils.Series_map T LCZ_num !! i =
    (fun x => match x with
              | VInt n => match dict_get n T with Some c => VStr c | None => VNaN end
              | _ => VNaN
              end) <$> LCZ_num !! i.
Proof. unfold lcz_utils.Series_map. apply list_lookup_fmap. Qed.

(** C2: when every code of [C] is a key of the table [T] read from the mapper
    file, [convert_LCZ_num_to_class] returns as many labels as there are
    codes, and the label at each position is [T[code]] for the code at that
    position. *)
Theorem convert_LCZ_num_to_class_positions file T (C : list Z) :
  load_mapper file = Ok T →
  Forall (fun c => c ∈ dict_keys T) C →
  ∃ labels,
    convert_LCZ_num_to_class (VInt <$> C) file = Ok labels ∧
    length labels = length C ∧
    ∀ i c, C !! i = Some c →
      ∃ l, dict_get c T = Some l ∧ labels !! i = Some (VStr l).
Proof.
  intros HT Hkeys. unfold lcz_utils.convert_LCZ_num_to_class. rewrite HT. simpl.
  eexists. split; [reflexivity |]. split.
  - unfold lcz_utils.Series_map. by rewrite !length_fmap.
  - intros i c Hi.
    assert (c ∈ dict_keys T) as Hc.
    { eapply (proj1 (Forall_forall _ _) Hkeys). by eapply list_elem_of_lookup_2. }
    apply dict_get_is_Some in Hc as [l Hl]. exists l. split; [done |].
    rewrite Series_map_lookup, list_lookup_fmap, Hi. simpl. by rewrite Hl.
Qed.

(** C5: a code that is no key of the table does not make
    [convert_LCZ_num_to_class] raise: the call returns a Series of the same
    length that holds the missing value at the positions of such codes and
    the table's label at the positions of the codes that are keys. *)
Theorem convert_LCZ_num_to_class_lookup_miss file T (LCZ_num : Series) :
  load_mapper file = Ok T →
  ∃ LCZ_class,
    convert_LCZ_num_to_class LCZ_num file = Ok LCZ_class ∧
    length LCZ_class = length LCZ_num ∧
    (∀ i c, LCZ_num !! i = Some (VInt c) → c ∉ dict_keys T →
            LCZ_class !! i = Some VNaN) ∧
    (∀ i c l, LCZ_num !! i = Some (VInt c) → dict_get c T = Some l →
              LCZ_class !! i = Some (VStr l)).
Proof.
  intros HT. unfold lcz_utils.convert_LCZ_num_to_class. rewrite HT. simpl.
  eexists. split; [reflexivity |]. split_and!.
  - unfold lcz_utils.Series_map. by rewrite length_fmap.
  - intros i c Hi Hc%dict_get_None.
    rewrite Series_map_lookup, Hi. simpl. by rewrite Hc.
  - intros i c l Hi Hl.
    rewrite Series_map_lookup, Hi. simpl. by rewrite Hl.
Qed.

(** C3: with a readable mapper and a kind other than "num" and "class",
    [get_LCZ_order] raises, but what it raises is [UnboundLocalError] for the
    name [LCZ_ref]; the [ValueError] is built and never raised. *)
Theorem get_LCZ_order_unrecognised_kind LCZ file T LCZ_kind :
  load_mapper file = Ok T →
  LCZ_kind ≠ "num" → LCZ_kind ≠ "class" →
  get_LCZ_order LCZ file LCZ_kind = Raise UnboundLocalError ∧
  get_LCZ_order LCZ file LCZ_kind ≠ Raise ValueError.
Proof.
  intros HT Hnum Hclass.
  assert (get_LCZ_order LCZ file LCZ_kind = Raise UnboundLocalError) as ->; [| done].
  unfold lcz_utils.get_LCZ_order, lcz_utils.LCZ_ref_of. rewrite HT. simpl.
  by rewrite !decide_False.
Qed.

(** C7: [get_LCZ_order] is a function of its inputs, and with a recognised
    kind its output is a fixed point: given its own output as the sequence of
    values it returns that output unchanged. *)
Theorem get_LCZ_order_idempotent LCZ file LCZ_kind :
  LCZ_kind = "num" ∨ LCZ_kind = "class" →
  (∀ r1 r2, get_LCZ_order LCZ file LCZ_kind = r1 →
            get_LCZ_order LCZ file LCZ_kind = r2 → r1 = r2) ∧
  (∀ LCZ_order, get_LCZ_order LCZ file LCZ_kind = Ok LCZ_order →
                get_LCZ_order LCZ_order file LCZ_kind = Ok LCZ_order).
Proof.
  intros Hkind. split; [congruence |].
  intros LCZ_order Hcall.
  destruct (load_mapper file) as [T|e] eqn:HT;
    [| unfold lcz_utils.get_LCZ_order in Hcall; by rewrite HT in Hcall].
  destruct (LCZ_ref_of_recognised T LCZ_kind Hkind) as [LCZ_ref Href].
  rewrite (get_LCZ_order_filter int _ _ T _ _ HT Href) in Hcall.
  injection Hcall as <-.
  rewrite (get_LCZ_order_filter int _ _ T _ _ HT Href). f_equal.
  apply filter_ext_elem. intros x Hx. rewrite list_elem_of_filter. tauto.
Qed.

(** C9: two input sequences with the same set of values give the same
    result, whatever their order and multiplicities. *)
Theorem get_LCZ_order_same_values (LCZ1 LCZ2 : Series) file LCZ_kind :
  (∀ x, x ∈ LCZ1 ↔ x ∈ LCZ2) →
  get_LCZ_order LCZ1 file LCZ_kind = get_LCZ_order LCZ2 file LCZ_kind.
Proof.
  intros Hsame. unfold lcz_utils.get_LCZ_order.
  destruct (load_mapper file) as [T|e]; simpl; [| done].
  destruct (lcz_utils.LCZ_ref_of T LCZ_kind) as [LCZ_ref|]; [| done].
  f_equal. apply filter_ext_elem. intros x _.
  rewrite !Is_true_true, !np_contains_true, !elem_of_unique, Hsame. done.
Qed.

(** C10: on an empty input sequence, with a readable mapper and a recognised
    kind, [get_LCZ_order] returns the empty list. *)
Theorem get_LCZ_order_empty file T LCZ_kind :
  load_mapper file = Ok T →
  LCZ_kind = "num" ∨ LCZ_kind = "class" →
  get_LCZ_order [] file LCZ_kind = Ok [].
Proof.
  intros HT Hkind.
  destruct (LCZ_ref_of_recognised T LCZ_kind Hkind) as [LCZ_ref Href].
  rewrite (get_LCZ_order_filter int _ _ T _ _ HT Href). f_equal.
  clear Href. induction LCZ_ref as [|x l IH]; [done |].
  rewrite filter_cons_False; [done |]. intros [_ []%elem_of_nil].
Qed.

End mapper_claims.

(** * Properties of the comparison plotter *)

(** ** The order of binary64 numbers *)

Lemma SFltb_trans a b c :
  SFltb a b = true → SFltb b c = true → SFltb a c = true.
Proof.
  unfold SFltb, SFcompare.
  destruct a as [sa|sa| |sa ma ea], b as [sb|sb| |sb mb eb], c as [sc|sc| |sc mc ec];
    try destruct sa; try destruct sb; try destruct sc; try done;
    destruct (Z.compare_spec ea eb), (Z.compare_spec eb ec), (Z.compare_spec ea ec);
    try done; try lia; subst;
    change (Pos.compare_cont Eq) with Pos.compare;
    destruct (Pos.compare_spec ma mb), (Pos.compare_spec mb mc), (Pos.compare_spec ma mc);
    simpl; try done; try lia.
Qed.

Lemma SFltb_neg_trans a b c :
  a ≠ S754_nan → b ≠ S754_nan → c ≠ S754_nan →
  SFltb a b = false → SFltb b c = false → SFltb a c = false.
Proof.
  unfold SFltb, SFcompare.
  destruct a as [sa|sa| |sa ma ea], b as [sb|sb| |sb mb eb], c as [sc|sc| |sc mc ec];
    try destruct sa; try destruct sb; try destruct sc; try done;
    destruct (Z.compare_spec ea eb), (Z.compare_spec eb ec), (Z.compare_spec ea ec);
    try done; try lia; subst;
    change (Pos.compare_cont Eq) with Pos.compare;
    destruct (Pos.compare_spec ma mb), (Pos.compare_spec mb mc), (Pos.compare_spec ma mc);
    simpl; try done; try lia.
Qed.

Lemma is_nan_false x : PrimFloat.is_nan x = false → Prim2SF x ≠ S754_nan.
Proof.
  unfold PrimFloat.is_nan. rewrite FloatAxioms.eqb_spec. intros H Hnan. rewrite Hnan in H. done.
Qed.

Lemma ltb_trans (x y z : float) :
  PrimFloat.ltb x y = true → PrimFloat.ltb y z = true → PrimFloat.ltb x z = true.
Proof. rewrite !FloatAxioms.ltb_spec. apply SFltb_trans. Qed.

Lemma ltb_neg_trans (x y z : float) :
  PrimFloat.is_nan x = false → PrimFloat.is_nan y = false → PrimFloat.is_nan z = false →
  PrimFloat.ltb x y = false → PrimFloat.ltb y z = false → PrimFloat.ltb x z = false.
Proof.
  rewrite !FloatAxioms.ltb_spec. intros Hx Hy Hz.
  apply SFltb_neg_trans; by apply is_nan_false.
Qed.

(** ** Reductions over two columns *)

Lemma skipna_no_nan xs : no_nan (skipna xs).
Proof.
  unfold no_nan, skipna. apply Forall_forall. intros x Hx%list_elem_of_In.
  apply List.filter_In in Hx as [_ Hx]. by apply negb_true_iff in Hx.
Qed.

Lemma skipna_app xs ys : skipna (xs ++ ys) = skipna xs ++ skipna ys.
Proof. apply List.filter_app. Qed.

Ltac order_cases :=
  repeat match goal with
         | |- context [PrimFloat.ltb ?a ?b] =>
             is_var a; is_var b;
             let E := fresh "E" in destruct (PrimFloat.ltb a b) eqn:E
         end.

Ltac order_absurd :=
  match goal with
  | H1 : PrimFloat.ltb ?a ?b = true, H2 : PrimFloat.ltb ?b ?c = true,
    H3 : PrimFloat.ltb ?a ?c = false |- _ =>
      rewrite (ltb_trans a b c H1 H2) in H3; discriminate H3
  | H1 : PrimFloat.ltb ?a ?b = false, H2 : PrimFloat.ltb ?b ?c = false,
    H3 : PrimFloat.ltb ?a ?c = true |- _ =>
      rewrite (ltb_neg_trans a b c) in H3 by assumption; discriminate H3
  end.

Lemma fmin_assoc x y z :
  PrimFloat.is_nan x = false → PrimFloat.is_nan y = false → PrimFloat.is_nan z = false →
  fmin (fmin x y) z = fmin x (fmin y z).
Proof. intros Hx Hy Hz. unfold fmin. order_cases; try congruence; order_absurd. Qed.

Lemma fmax_assoc x y z :
  PrimFloat.is_nan x = false → PrimFloat.is_nan y = false → PrimFloat.is_nan z = false →
  fmax (fmax x y) z = fmax x (fmax y z).
Proof. intros Hx Hy Hz. unfold fmax. order_cases; try congruence; order_absurd. Qed.

Lemma fmin_no_nan x y :
  PrimFloat.is_nan x = false → PrimFloat.is_nan y = false →
  PrimFloat.is_nan (fmin x y) = false.
Proof. unfold fmin. by destruct (PrimFloat.ltb y x). Qed.

Lemma fmax_no_nan x y :
  PrimFloat.is_nan x = false → PrimFloat.is_nan y = false →
  PrimFloat.is_nan (fmax x y) = false.
Proof. unfold fmax. by destruct (PrimFloat.ltb x y). Qed.

Section reduce.
Variable op : float -> float -> float.
Hypothesis op_assoc : ∀ x y z,
  PrimFloat.is_nan x = false → PrimFloat.is_nan y = false → PrimFloat.is_nan z = false →
  op (op x y) z = op x (op y z).
Hypothesis op_no_nan : ∀ x y,
  PrimFloat.is_nan x = false → PrimFloat.is_nan y = false →
  PrimFloat.is_nan (op x y) = false.

Lemma foldl_no_nan x xs :
  PrimFloat.is_nan x = false → no_nan xs → PrimFloat.is_nan (foldl op x xs) = false.
Proof.
  intros Hx Hxs. revert x Hx.
  induction Hxs as [|y xs Hy _ IH]; intros x Hx; simpl; [done |].
  by apply IH, op_no_nan.
Qed.

Lemma foldl_op_cons m x xs :
  PrimFloat.is_nan m = false → PrimFloat.is_nan x = false → no_nan xs →
  foldl op (op m x) xs = op m (foldl op x xs).
Proof.
  intros Hm Hx Hxs. revert x Hx.
  induction Hxs as [|y xs Hy _ IH]; intros x Hx; simpl; [done |].
  rewrite op_assoc by done. apply IH. by apply op_no_nan.
Qed.

(** Reducing each of two columns and then the two outcomes is reducing the
    two columns taken together. *)
Lemma nan_reduce_two_columns xs ys :
  nan_reduce op [nan_reduce op xs; nan_reduce op ys] = nan_reduce op (xs ++ ys).
Proof.
  unfold nan_reduce at 1 4. rewrite skipna_app.
  pose proof (skipna_no_nan xs) as Hxs. pose proof (skipna_no_nan ys) as Hys.
  unfold nan_reduce.
  destruct (skipna xs) as [|a A], (skipna ys) as [|b B]; simpl.
  - reflexivity.
  - apply Forall_cons in Hys as [Hb HB].
    unfold skipna. simpl. by rewrite (foldl_no_nan b B).
  - apply Forall_cons in Hxs as [Ha HA].
    unfold skipna. simpl. rewrite (foldl_no_nan a A) by done. simpl.
    by rewrite app_nil_r.
  - apply Forall_cons in Hxs as [Ha HA]. apply Forall_cons in Hys as [Hb HB].
    unfold skipna. simpl.
    rewrite (foldl_no_nan a A), (foldl_no_nan b B) by done. simpl.
    rewrite foldl_app. simpl. apply eq_sym, foldl_op_cons; [| done | done].
    by apply foldl_no_nan.
Qed.
End reduce.

Lemma nanmin_two_columns xs ys : nanmin [nanmin xs; nanmin ys] = nanmin (xs ++ ys).
Proof. apply nan_reduce_two_columns; [apply fmin_assoc | apply fmin_no_nan]. Qed.

Lemma nanmax_two_columns xs ys : nanmax [nanmax xs; nanmax ys] = nanmax (xs ++ ys).
Proof. apply nan_reduce_two_columns; [apply fmax_assoc | apply fmax_no_nan]. Qed.

(** ** The plotter's claims *)

(** Membership in an explicit list of calls: one case per call that is not
    ruled out by its constructor. *)
Ltac trace_member H :=
  repeat (apply elem_of_cons in H as [H|H]; [try discriminate H |]);
  try (by apply elem_of_nil in H).

(** Every way through [plot_pred_vs_actual] for a scatter-plot function
    [sc]: hue or not, the scatter plot drawn or not, the two reductions
    returned or not, the limits accepted or not. *)
Ltac plot_paths sc :=
  unfold run, plot_utils.plot_pred_vs_actual, with_rc_context;
  unfold mbind, Render_bind, issue, lift, mret, Render_ret;
  (match goal with
   | |- context [sc ?d ?x ?y ?h ?o ?p] =>
       destruct (sc d x y h o p) as [[]|?] eqn:Hdrawn
   end);
  try (match goal with
       | |- context [plot_utils.frame_min ?d ?x ?y] =>
           destruct (plot_utils.frame_min d x y) as [?|?]
       end);
  try (match goal with
       | |- context [plot_utils.frame_max ?d ?x ?y] =>
           destruct (plot_utils.frame_max d x y) as [?|?]
       end);
  cbv beta iota zeta;
  try (match goal with
       | |- context [validate_limits ?a ?b] =>
           destruct (validate_limits a b) as [[]|?] eqn:Hlimits
       end).

(** ** What the two reductions return *)





Lemma frame_min_float (df : DataFrame) col_actual col_pred actual predicted :
  dict_get col_actual df = Some (Numeric actual) →
  dict_get col_pred df = Some (Numeric predicted) →
  plot_utils.frame_min df col_actual col_pred
  = Ok (SFloat (nanmin (actual ++ predicted))).
Proof.
  intros Hactual Hpred. unfold plot_utils.frame_min, plot_utils.frame_reduce.
  rewrite Hactual, Hpred. simpl. by rewrite nanmin_two_columns.
Qed.

Lemma frame_max_float (df : DataFrame) col_actual col_pred actual predicted :
  dict_get col_actual df = Some (Numeric actual) →
  dict_get col_pred df = Some (Numeric predicted) →
  plot_utils.frame_max df col_actual col_pred
  = Ok (SFloat (nanmax (actual ++ predicted))).
Proof.
  intros Hactual Hpred. unfold plot_utils.frame_max, plot_utils.frame_reduce.
  rewrite Hactual, Hpred. simpl. by rewrite nanmax_two_columns.
Qed.




Section plotter_claims.
Variable format_3f : float -> string.
Variable scatterplot :
  DataFrame -> string -> string -> option string ->
  option (list value) -> option (dict string string) -> result unit.

Local Abbreviation plot_pred_vs_actual :=
  (plot_utils.plot_pred_vs_actual format_3f scatterplot).


(** C4: when the DataFrame lacks the column of actual values, the column of
    predicted values, or the hue column named while [use_hue] is set, the
    scatter-plot call answers with [ValueError] and [plot_pred_vs_actual]
    raises it.  By then the figure, the axes and the title have been made;
    nothing after the scatter plot is issued, and the configuration is
    restored. *)
Theorem plot_pred_vs_actual_missing_column
    df col_actual col_pred col_hue hue_title_fancy hue_order hue_palette
    target_title_fancy target_units_title_fancy scores use_hue print_scores :
  raises_on_missing_column scatterplot →
  col_actual ∉ dict_keys df ∨ col_pred ∉ dict_keys df ∨
    (use_hue = true ∧ ∃ h, col_hue = Some h ∧ h ∉ dict_keys df) →
  run (plot_pred_vs_actual df col_actual col_pred col_hue hue_title_fancy
         hue_order hue_palette target_title_fancy target_units_title_fancy
         scores use_hue print_scores)
  = (Raise ValueError,
     [rc_context_enter; plt_figure 9 7; plt_axes;
      plt_title ("Actual and predicted " +:+ target_title_fancy);
      rc_context_exit]).
Proof.
  intros Hsns Hmiss.
  assert (scatterplot df col_actual col_pred
            (if use_hue then col_hue else None)
            (if use_hue then hue_order else None)
            (if use_hue then hue_palette else None) = Raise ValueError) as Hraise.
  { apply Hsns. destruct Hmiss as [?|[?|[-> ?]]]; auto. }
  unfold run, plot_utils.plot_pred_vs_actual, with_rc_context.
  unfold mbind, Render_bind, issue, lift. rewrite Hraise. reflexivity.
Qed.

(** C8: with [use_hue] unset, the scatter plot is asked for no hue, no hue
    order and no palette, so all points get the one default colour; no legend
    is requested; and the hue column, legend title, hue order and palette
    that were supplied change nothing in what is issued or returned. *)
Theorem plot_pred_vs_actual_without_hue
    df col_actual col_pred col_hue hue_title_fancy hue_order hue_palette
    target_title_fancy target_units_title_fancy scores print_scores :
  (∀ col_hue' hue_title_fancy' hue_order' hue_palette',
     run (plot_pred_vs_actual df col_actual col_pred col_hue' hue_title_fancy'
            hue_order' hue_palette' target_title_fancy target_units_title_fancy
            scores false print_scores)
     = run (plot_pred_vs_actual df col_actual col_pred col_hue hue_title_fancy
              hue_order hue_palette target_title_fancy target_units_title_fancy
              scores false print_scores)) ∧
  (∀ title,
     plt_legend title ∉
       (run (plot_pred_vs_actual df col_actual col_pred col_hue hue_title_fancy
               hue_order hue_palette target_title_fancy target_units_title_fancy
               scores false print_scores)).2) ∧
  (∀ data x y hue order palette,
     sns_scatterplot data x y hue order palette ∈
       (run (plot_pred_vs_actual df col_actual col_pred col_hue hue_title_fancy
               hue_order hue_palette target_title_fancy target_units_title_fancy
               scores false print_scores)).2 →
     hue = None ∧ order = None ∧ palette = None).
Proof.
  split; [reflexivity |].
  plot_paths scatterplot;
    destruct print_scores, scores as [sc|]; simpl;
    (split;
     [ intros title Hin; trace_member Hin
     | intros data x y hue order palette Hin; trace_member Hin;
       by injection Hin as -> -> -> -> -> -> ]).
Qed.


End plotter_claims.

(** * The claims at concrete inputs *)

Example abc_file_loads : lcz_utils.load_mapper decimal_int abc_file = Ok abc_table.
Proof. reflexivity. Qed.

Example abc_codes_to_classes :
  lcz_utils.convert_LCZ_num_to_class decimal_int [VInt 2; VInt 1; VInt 2; VInt 3] abc_file
  = Ok [VStr "B"; VStr "A"; VStr "B"; VStr "C"].
Proof. reflexivity. Qed.

Example abc_order_of_classes :
  lcz_utils.get_LCZ_order decimal_int
    [VStr "B"; VStr "A"; VStr "B"; VStr "C"] abc_file "class"
  = Ok [VStr "A"; VStr "B"; VStr "C"].
Proof. reflexivity. Qed.

(** C1: on a mapper whose two codes carry the same label, [get_LCZ_order]
    returns that label twice for an input that holds it once: the result is
    a subsequence of the table's labels but it is not free of duplicates. *)
Theorem get_LCZ_order_class_repeated_label :
  lcz_utils.get_LCZ_order decimal_int [VStr "A"] aa_file "class"
    = Ok [VStr "A"; VStr "A"] ∧
  ¬ NoDup [VStr "A"; VStr "A"].
Proof.
  split; [reflexivity |].
  intros Hnd. apply NoDup_cons_1_1 in Hnd. apply Hnd. left.
Qed.

Lemma convert_LCZ_num_to_class_positions_witness :
  lcz_utils.load_mapper decimal_int abc_file = Ok abc_table ∧
  Forall (fun c => c ∈ dict_keys abc_table) [2; 1; 2; 3] ∧
  ∃ labels,
    lcz_utils.convert_LCZ_num_to_class decimal_int (VInt <$> [2; 1; 2; 3]) abc_file
      = Ok labels ∧
    length labels = length [2; 1; 2; 3] ∧
    ∀ i c, [2; 1; 2; 3] !! i = Some c →
      ∃ l, dict_get c abc_table = Some l ∧ labels !! i = Some (VStr l).
Proof.
  assert (Forall (fun c => c ∈ dict_keys abc_table) [2; 1; 2; 3]) as Hkeys.
  { repeat apply Forall_cons_2; [| | | | apply Forall_nil_2];
      apply list_elem_of_In; simpl; tauto. }
  split; [reflexivity |]. split; [exact Hkeys |].
  apply (convert_LCZ_num_to_class_positions decimal_int abc_file abc_table [2; 1; 2; 3]);
    [reflexivity | exact Hkeys].
Defined.

Lemma convert_LCZ_num_to_class_lookup_miss_witness :
  lcz_utils.load_mapper decimal_int abc_file = Ok abc_table ∧
  ∃ LCZ_class,
    lcz_utils.convert_LCZ_num_to_class decimal_int [VInt 2; VInt 7; VInt 3] abc_file
      = Ok LCZ_class ∧
    length LCZ_class = length [VInt 2; VInt 7; VInt 3] ∧
    (∀ i c, [VInt 2; VInt 7; VInt 3] !! i = Some (VInt c) → c ∉ dict_keys abc_table →
            LCZ_class !! i = Some VNaN) ∧
    (∀ i c l, [VInt 2; VInt 7; VInt 3] !! i = Some (VInt c) →
              dict_get c abc_table = Some l →
              LCZ_class !! i = Some (VStr l)).
Proof.
  split; [reflexivity |].
  apply (convert_LCZ_num_to_class_lookup_miss decimal_int abc_file abc_table
           [VInt 2; VInt 7; VInt 3]).
  reflexivity.
Defined.

Lemma get_LCZ_order_unrecognised_kind_witness :
  lcz_utils.load_mapper decimal_int abc_file = Ok abc_table ∧
  "classes" ≠ "num" ∧ "classes" ≠ "class" ∧
  lcz_utils.get_LCZ_order decimal_int [VStr "A"] abc_file "classes"
    = Raise UnboundLocalError ∧
  lcz_utils.get_LCZ_order decimal_int [VStr "A"] abc_file "classes"
    ≠ Raise ValueError.
Proof.
  split; [reflexivity |]. split; [discriminate |]. split; [discriminate |].
  apply (get_LCZ_order_unrecognised_kind decimal_int [VStr "A"] abc_file abc_table "classes");
    [reflexivity | discriminate | discriminate].
Defined.

Lemma get_LCZ_order_idempotent_witness :
  ("class" = "num" ∨ "class" = "class") ∧
  (∀ r1 r2,
     lcz_utils.get_LCZ_order decimal_int [VStr "B"; VStr "A"; VStr "B"] abc_file "class" = r1 →
     lcz_utils.get_LCZ_order decimal_int [VStr "B"; VStr "A"; VStr "B"] abc_file "class" = r2 →
     r1 = r2) ∧
  (∀ LCZ_order,
     lcz_utils.get_LCZ_order decimal_int [VStr "B"; VStr "A"; VStr "B"] abc_file "class"
       = Ok LCZ_order →
     lcz_utils.get_LCZ_order decimal_int LCZ_order abc_file "class" = Ok LCZ_order).
Proof.
  split; [right; reflexivity |].
  apply (get_LCZ_order_idempotent decimal_int [VStr "B"; VStr "A"; VStr "B"] abc_file "class").
  right; reflexivity.
Defined.

Lemma get_LCZ_order_same_values_witness :
  (∀ x, x ∈ [VStr "B"; VStr "A"; VStr "B"] ↔ x ∈ [VStr "A"; VStr "B"]) ∧
  lcz_utils.get_LCZ_order decimal_int [VStr "B"; VStr "A"; VStr "B"] abc_file "class"
  = lcz_utils.get_LCZ_order decimal_int [VStr "A"; VStr "B"] abc_file "class".
Proof.
  assert (∀ x, x ∈ [VStr "B"; VStr "A"; VStr "B"] ↔ x ∈ [VStr "A"; VStr "B"]) as Hsame.
  { intros x. rewrite !elem_of_cons, !elem_of_nil. tauto. }
  split; [exact Hsame |].
  apply (get_LCZ_order_same_values decimal_int
           [VStr "B"; VStr "A"; VStr "B"] [VStr "A"; VStr "B"] abc_file "class").
  exact Hsame.
Defined.

Lemma get_LCZ_order_empty_witness :
  lcz_utils.load_mapper decimal_int abc_file = Ok abc_table ∧
  ("num" = "num" ∨ "num" = "class") ∧
  lcz_utils.get_LCZ_order decimal_int [] abc_file "num" = Ok [].
Proof.
  split; [reflexivity |]. split; [left; reflexivity |].
  apply (get_LCZ_order_empty decimal_int abc_file abc_table "num");
    [reflexivity | left; reflexivity].
Defined.

(** A scatter-plot stand-in that checks the columns keeps the contract. *)
Lemma scatterplot_checking_columns_contract :
  raises_on_missing_column scatterplot_checking_columns.
Proof.
  intros df x y hue hue_order palette Hmiss. unfold scatterplot_checking_columns.
  destruct (dict_get x df) as [cx|] eqn:Hx; [| done].
  destruct (dict_get y df) as [cy|] eqn:Hy; [| done].
  destruct Hmiss as [Hm|[Hm|(h & -> & Hm)]].
  - apply dict_get_None in Hm. congruence.
  - apply dict_get_None in Hm. congruence.
  - apply dict_get_None in Hm. by rewrite Hm.
Qed.

Example example_df_calls :
  run (plot_utils.plot_pred_vs_actual (fun _ => "") scatterplot_checking_columns
         example_df "y_actual" "y_pred" (Some "LCZ") (Some "LCZ-Majority")
         (Some [VStr "A"; VStr "B"]) None "" "" None true true)
  = (Ok tt,
     [rc_context_enter; plt_figure 9 7; plt_axes;
      plt_title "Actual and predicted ";
      sns_scatterplot example_df "y_actual" "y_pred" (Some "LCZ")
        (Some [VStr "A"; VStr "B"]) None;
      ax_set_xlim 89.5 320.5; ax_set_ylim 89.5 320.5;
      plt_axline 0 0 1;
      ax_set_xlabel "Actual  $ \, [$  $]$";
      ax_set_ylabel "Predicted  $ \, [$  $]$";
      ax_minorticks_on; ax_set_aspect "equal";
      ax_grid "major" "solid"; ax_grid "minor" "dotted";
      plt_legend (Some "LCZ-Majority"); plt_show; rc_context_exit]).
Proof. vm_compute. reflexivity. Qed.

(** C4, as the specification words it, fails: with the column of actual
    values missing the call does raise [ValueError], but the figure, the
    axes and the title have been made by then. *)
Lemma plot_pred_vs_actual_draws_before_failing :
  ("y_actual" ∉ dict_keys df_without_actual) ∧
  (run (plot_utils.plot_pred_vs_actual (fun _ => "") scatterplot_checking_columns
         df_without_actual "y_actual" "y_pred" (Some "LCZ") None None None
         "" "" None true true)
  = (Raise ValueError,
     [rc_context_enter; plt_figure 9 7; plt_axes;
      plt_title "Actual and predicted "; rc_context_exit])) ∧
  ¬ Forall (fun c => is_rendering c = false)
      (run (plot_utils.plot_pred_vs_actual (fun _ => "") scatterplot_checking_columns
              df_without_actual "y_actual" "y_pred" (Some "LCZ") None None None
              "" "" None true true)).2.
Proof.
  split; [| split].
  - intros Hin. trace_member Hin.
  - reflexivity.
  - intros Hall. apply Forall_cons in Hall as [_ Hall].
    apply Forall_cons in Hall as [Hfigure _]. discriminate Hfigure.
Qed.

Lemma plot_pred_vs_actual_missing_column_witness :
  raises_on_missing_column scatterplot_checking_columns ∧
  ("y_actual" ∉ dict_keys df_without_actual ∨
   "y_pred" ∉ dict_keys df_without_actual ∨
   (true = true ∧ ∃ h, Some "LCZ" = Some h ∧ h ∉ dict_keys df_without_actual)) ∧
  run (plot_utils.plot_pred_vs_actual (fun _ => "") scatterplot_checking_columns
         df_without_actual "y_actual" "y_pred" (Some "LCZ") None None None
         "LST" "K" None true true)
  = (Raise ValueError,
     [rc_context_enter; plt_figure 9 7; plt_axes;
      plt_title ("Actual and predicted " +:+ "LST");
      rc_context_exit]).
Proof.
  assert ("y_actual" ∉ dict_keys df_without_actual) as Hmiss.
  { intros Hin. trace_member Hin. }
  split; [exact scatterplot_checking_columns_contract |].
  split; [left; exact Hmiss |].
  apply (plot_pred_vs_actual_missing_column (fun _ => "") scatterplot_checking_columns
           df_without_actual "y_actual" "y_pred" (Some "LCZ") None None None
           "LST" "K" None true true);
    [exact scatterplot_checking_columns_contract | left; exact Hmiss].
Defined.



(** * Further properties of the code *)

(** ** Dictionaries built from pairs *)

Section dict_of_pairs_facts.
Context {K V : Type} `{EqDecision K}.
Implicit Types (d : dict K V) (k : K) (v : V) (ps : list (K * V)).

Lemma dict_set_fresh k v d :
  k ∉ dict_keys d → dict_set k v d = d ++ [(k, v)].
Proof.
  unfold dict_keys. induction d as [|[k' v'] d IH]; csimpl; [done |].
  intros [Hne Hnin]%not_elem_of_cons.
  rewrite decide_False by done. by rewrite IH.
Qed.

Lemma dict_get_set k k' v d :
  dict_get k (dict_set k' v d) = if decide (k = k') then Some v else dict_get k d.
Proof.
  induction d as [|[k0 v0] d IH]; simpl.
  - by destruct (decide (k = k')).
  - destruct (decide (k' = k0)) as [-> | Hne]; simpl.
    + by destruct (decide (k = k0)).
    + rewrite IH. destruct (decide (k = k0)) as [-> | Hne']; [| done].
      by rewrite decide_False.
Qed.

Lemma dict_get_app k d1 d2 :
  dict_get k (d1 ++ d2) =
    match dict_get k d1 with Some v => Some v | None => dict_get k d2 end.
Proof.
  induction d1 as [|[k0 v0] d1 IH]; simpl; [done |].
  by destruct (decide (k = k0)).
Qed.

Lemma foldl_dict_set_get k ps d :
  dict_get k (foldl (fun d kv => dict_set kv.1 kv.2 d) d ps) =
    match dict_get k (reverse ps) with Some v => Some v | None => dict_get k d end.
Proof.
  revert d. induction ps as [|[k0 v0] ps IH]; intros d; simpl; [done |].
  rewrite IH, reverse_cons, dict_get_app, dict_get_set. simpl.
  destruct (dict_get k (reverse ps)); [done |].
  by destruct (decide (k = k0)).
Qed.

(** Looking a key up in [dict(pairs)] finds the last pair with that key. *)
Lemma dict_get_of_pairs k ps :
  dict_get k (dict_of_pairs ps) = dict_get k (reverse ps).
Proof.
  unfold dict_of_pairs. rewrite foldl_dict_set_get. by destruct (dict_get _ _).
Qed.

Lemma elem_of_dict_keys_of_pairs k ps :
  k ∈ dict_keys (dict_of_pairs ps) ↔ k ∈ ps.*1.
Proof.
  rewrite <-!dict_get_is_Some, dict_get_of_pairs, !dict_get_is_Some.
  unfold dict_keys. by rewrite fmap_reverse, elem_of_reverse.
Qed.

Lemma foldl_dict_set_values v ps d :
  v ∈ dict_values (foldl (fun d kv => dict_set kv.1 kv.2 d) d ps) →
  v ∈ dict_values d ∨ v ∈ ps.*2.
Proof.
  revert d. induction ps as [|[k0 v0] ps IH]; intros d; csimpl; [by left |].
  intros [Hin | Hin]%IH; [| by right; right].
  assert (∀ d', v ∈ dict_values (dict_set k0 v0 d') → v ∈ dict_values d' ∨ v = v0) as Hset.
  { unfold dict_values. induction d' as [|[k1 v1] d' IHd]; csimpl.
    - intros ->%list_elem_of_singleton. by right.
    - destruct (decide (k0 = k1)); csimpl; rewrite !elem_of_cons; [tauto |].
      intros [-> | Hd]; [tauto |]. destruct (IHd Hd); tauto. }
  destruct (Hset _ Hin) as [? | ->]; [by left | right; left].
Qed.

Lemma dict_of_pairs_distinct ps : NoDup ps.*1 → dict_of_pairs ps = ps.
Proof.
  unfold dict_of_pairs.
  assert (∀ d, NoDup (dict_keys d ++ ps.*1) →
               foldl (fun d kv => dict_set kv.1 kv.2 d) d ps = d ++ ps) as Hgen.
  { induction ps as [|[k v] ps IH]; intros d Hnd; csimpl; [by rewrite app_nil_r |].
    apply NoDup_app in Hnd as (Hd & Hdisj & Hps).
    apply NoDup_cons in Hps as [Hk Hps].
    rewrite dict_set_fresh by (intros Hin; apply (Hdisj k Hin); left).
    rewrite IH; [by rewrite <-app_assoc |].
    unfold dict_keys. rewrite fmap_app. csimpl. rewrite <-app_assoc. csimpl.
    apply NoDup_app. split_and!; [done | | by apply NoDup_cons].
    intros x Hx [-> | Hin]%elem_of_cons; [| by apply (Hdisj x Hx); right].
    apply (Hdisj k Hx). left. }
  intros Hnd. apply (Hgen []). by csimpl.
Qed.
End dict_of_pairs_facts.

(** ** Reading the mapper and the palette *)

Section resources.
Variable int : string -> option Z.

Local Abbreviation load_mapper := (lcz_utils.load_mapper int).
Local Abbreviation object_hook := (lcz_utils.object_hook int).
Local Abbreviation convert_LCZ_num_to_class := (lcz_utils.convert_LCZ_num_to_class int).
Local Abbreviation get_LCZ_order := (lcz_utils.get_LCZ_order int).
Local Abbreviation hook_step :=
  (fun (acc : result (dict Z string)) (kv : string * string) =>
     d ← acc;
     match int kv.1 with
     | Some n => Ok (dict_set n kv.2 d)
     | None => Raise ValueError
     end).

Lemma hook_step_Raise items e : foldl hook_step (Raise e) items = Raise e.
Proof. induction items as [|kv items IH]; simpl; [done | exact IH]. Qed.

(** The comprehension either meets a key text that is no integer and
    raises [ValueError], or converts every key. *)
Lemma hook_step_outcome items d :
  (Exists (fun kv => int kv.1 = None) items ∧
   foldl hook_step (Ok d) items = Raise ValueError) ∨
  (Forall (fun kv => is_Some (int kv.1)) items ∧
   ∃ T, foldl hook_step (Ok d) items = Ok T).
Proof.
  revert d. induction items as [|kv items IH]; intros d; simpl.
  - right. split; [apply Forall_nil_2 | by eexists].
  - destruct (int kv.1) as [n|] eqn:Hkv.
    + destruct (IH (dict_set n kv.2 d)) as [[Hex Hr] | [Hall HT]].
      * left. split; [by apply Exists_cons_tl | done].
      * right. split; [| done]. apply Forall_cons_2; [by rewrite Hkv | done].
    + left. split; [by apply Exists_cons_hd |]. apply hook_step_Raise.
Qed.

Lemma hook_step_table items d T :
  foldl hook_step (Ok d) items = Ok T →
  (∀ n, n ∈ dict_keys T ↔
        n ∈ dict_keys d ∨ ∃ k, k ∈ items.*1 ∧ int k = Some n) ∧
  (∀ l, l ∈ dict_values T → l ∈ dict_values d ∨ l ∈ items.*2).
Proof.
  revert d. induction items as [|[k0 l0] items IH]; intros d; csimpl.
  - intros [= <-]. split; [| by left].
    intros n. split; [by left |]. intros [? | (k & []%elem_of_nil & _)]. done.
  - destruct (int k0) as [n0|] eqn:Hk0; [| by rewrite hook_step_Raise].
    intros [Hkeys Hvals]%IH. split.
    + intros n. rewrite Hkeys, dict_keys_set. split.
      * intros [Hin | (k & Hk & Hn)].
        -- case_decide; [by left |].
           apply elem_of_app in Hin as [? | ->%list_elem_of_singleton]; [by left |].
           right. exists k0. split; [left | done].
        -- right. exists k. split; [by right | done].
      * intros [Hin | (k & [-> | Hk]%elem_of_cons & Hn)].
        -- left. case_decide; [done |]. apply elem_of_app. by left.
        -- left. rewrite Hk0 in Hn. injection Hn as <-.
           case_decide; [done |]. apply elem_of_app. right. left.
        -- right. by exists k.
    + intros l [Hin | Hin]%Hvals; [| by right; right].
      destruct (foldl_dict_set_values l [(n0, l0)] d Hin) as [? | Hl]; [by left |].
      right. apply list_elem_of_singleton in Hl as ->. left.
Qed.

Lemma load_mapper_object members :
  load_mapper (JSONObject members) = foldl hook_step (Ok []) (dict_of_pairs members).
Proof. reflexivity. Qed.

(** X1: a mapper file that holds a JSON object makes the loading raise
    exactly when one of its key texts is not an integer for [int], and what
    is raised then is [ValueError]; no other exception comes out of an
    object. *)
Theorem load_mapper_raises_iff_key_not_int members :
  (load_mapper (JSONObject members) = Raise ValueError ↔
   ∃ k, k ∈ members.*1 ∧ int k = None) ∧
  (∀ e, load_mapper (JSONObject members) = Raise e → e = ValueError).
Proof.
  destruct (hook_step_outcome (dict_of_pairs members) []) as [[Hex Hr] | [Hall [T HT]]].
  - change (load_mapper (JSONObject members) = Raise ValueError) in Hr.
    rewrite Hr. split; [| by intros e [= <-]]. split; [intros _ | done].
    apply Exists_exists in Hex as ([k l] & Hin & Hnone). exists k. split; [| done].
    apply elem_of_dict_keys_of_pairs. unfold dict_keys.
    apply list_elem_of_fmap. by exists (k, l).
  - change (load_mapper (JSONObject members) = Ok T) in HT.
    rewrite HT. split; [| done]. split; [done |].
    intros (k & Hk%elem_of_dict_keys_of_pairs & Hnone).
    apply list_elem_of_fmap in Hk as ([k' l] & -> & Hin).
    pose proof (proj1 (Forall_forall _ _) Hall _ Hin) as [n Hn].
    simpl in *. congruence.
Qed.

(** X2: the table read from a mapper file has pairwise distinct codes; its
    codes are exactly the integers of the file's key texts, and each of its
    labels is a label of the file. *)
Theorem load_mapper_table members T :
  load_mapper (JSONObject members) = Ok T →
  NoDup (dict_keys T) ∧
  (∀ n, n ∈ dict_keys T ↔ ∃ k, k ∈ members.*1 ∧ int k = Some n) ∧
  (∀ l, l ∈ dict_values T → l ∈ members.*2).
Proof.
  intros HT. split; [by eapply load_mapper_NoDup |].
  change (foldl hook_step (Ok []) (dict_of_pairs members) = Ok T) in HT.
  apply hook_step_table in HT as [Hkeys Hvals]. split.
  - intros n. rewrite Hkeys. split.
    + intros [[]%elem_of_nil | (k & Hk & Hn)]. exists k. split; [| done].
      by apply (elem_of_dict_keys_of_pairs (V := string)).
    + intros (k & Hk & Hn). right. exists k. split; [| done].
      by apply (elem_of_dict_keys_of_pairs (V := string)).
  - intros l [[]%elem_of_nil | Hl]%Hvals.
    destruct (foldl_dict_set_values l members [] Hl) as [[]%elem_of_nil | ?]. done.
Qed.

Lemma hook_step_distinct (text : Z → string) (T d : dict Z string) :
  NoDup (dict_keys d ++ dict_keys T) →
  (∀ n, n ∈ dict_keys T → int (text n) = Some n) →
  foldl hook_step (Ok d) ((fun kv => (text kv.1, kv.2)) <$> T) = Ok (d ++ T).
Proof.
  revert d. induction T as [|[n l] T IH]; intros d Hnd Hint; csimpl;
    [by rewrite app_nil_r |].
  rewrite Hint by left.
  apply NoDup_app in Hnd as (Hd & Hdisj & HT).
  apply NoDup_cons in HT as [Hn HT].
  rewrite dict_set_fresh by (intros Hin; apply (Hdisj n Hin); left).
  rewrite IH; [by rewrite <-app_assoc | |].
  - unfold dict_keys. rewrite fmap_app. csimpl. rewrite <-app_assoc. csimpl.
    apply NoDup_app. split_and!; [done | | by apply NoDup_cons].
    intros x Hx [-> | Hin]%elem_of_cons; [| by apply (Hdisj x Hx); right].
    apply (Hdisj n Hx). left.
  - intros m Hm. apply Hint. by right.
Qed.

(** X3: writing a table with pairwise distinct codes as a JSON object, each
    code as a text that [int] reads back, and loading that object returns
    the table: same codes, same labels, same order. *)
Theorem load_mapper_round_trip (text : Z → string) (T : dict Z string) :
  NoDup (dict_keys T) →
  (∀ n, n ∈ dict_keys T → int (text n) = Some n) →
  load_mapper (JSONObject ((fun kv => (text kv.1, kv.2)) <$> T)) = Ok T.
Proof.
  intros Hnd Hint.
  change (foldl hook_step (Ok [])
            (dict_of_pairs ((fun kv : Z * string => (text kv.1, kv.2)) <$> T)) = Ok T).
  rewrite dict_of_pairs_distinct.
  - by apply (hook_step_distinct text T []).
  - rewrite <-list_fmap_compose.
    apply (NoDup_fmap_1 int). rewrite <-list_fmap_compose.
    assert (int ∘ (fst ∘ (fun kv : Z * string => (text kv.1, kv.2))) <$> T
            = Some <$> dict_keys T) as ->.
    { unfold dict_keys. rewrite <-list_fmap_compose.
      apply list_fmap_ext. intros i [n l] Hi. simpl. apply Hint.
      unfold dict_keys. apply list_elem_of_fmap. exists (n, l).
      split; [done |]. by eapply list_elem_of_lookup_2. }
    apply NoDup_fmap_2; [| done]. by intros ?? [=].
Qed.

(** X4: the palette read from a JSON object has each key of the object
    once, and gives a key the colour of its last member in the file; a
    missing file raises [FileNotFoundError] and a malformed one
    [JSONDecodeError]. *)
Theorem load_LCZ_class_palette_lookup members :
  lcz_utils.load_LCZ_class_palette NoSuchFile = Raise FileNotFoundError ∧
  lcz_utils.load_LCZ_class_palette NotJSON = Raise JSONDecodeError ∧
  ∃ palette,
    lcz_utils.load_LCZ_class_palette (JSONObject members) = Ok palette ∧
    NoDup (dict_keys palette) ∧
    (∀ k, k ∈ dict_keys palette ↔ k ∈ members.*1) ∧
    (∀ k, dict_get k palette = dict_get k (reverse members)).
Proof.
  split; [done |]. split; [done |]. eexists. split; [reflexivity |]. split_and!.
  - apply dict_of_pairs_NoDup.
  - intros k. apply elem_of_dict_keys_of_pairs.
  - intros k. apply dict_get_of_pairs.
Qed.

(** X5: an exception of the loading passes through
    [convert_LCZ_num_to_class] and [get_LCZ_order] unchanged, whatever the
    values and the kind: a missing file gives [FileNotFoundError] and a
    malformed one [JSONDecodeError] also for a kind that is not
    recognised. *)
Theorem mapper_errors_pass_through LCZ file LCZ_kind e :
  load_mapper file = Raise e →
  convert_LCZ_num_to_class LCZ file = Raise e ∧
  get_LCZ_order LCZ file LCZ_kind = Raise e ∧
  (file = NoSuchFile → e = FileNotFoundError) ∧
  (file = NotJSON → e = JSONDecodeError).
Proof.
  intros He. unfold lcz_utils.convert_LCZ_num_to_class, lcz_utils.get_LCZ_order.
  rewrite He. split_and!; [done | done | |]; intros ->; simpl in He; congruence.
Qed.

End resources.

(** ** The display order *)

Lemma filter_sublist_impl {A} (P Q : A → Prop)
    `{!∀ x, Decision (P x)} `{!∀ x, Decision (Q x)} (l : list A) :
  (∀ x, x ∈ l → P x → Q x) → filter P l `sublist_of` filter Q l.
Proof.
  induction l as [|a l IH]; intros Himpl; [done |].
  assert (filter P l `sublist_of` filter Q l) as Hl
    by (apply IH; intros x Hx; apply Himpl; by right).
  rewrite !filter_cons.
  destruct (decide (P a)) as [HP|HP], (decide (Q a)) as [HQ|HQ].
  - by apply sublist_skip.
  - exfalso. apply HQ, Himpl; [left | done].
  - by apply sublist_cons.
  - done.
Qed.

Lemma filter_all {A} (P : A → Prop) `{!∀ x, Decision (P x)} (l : list A) :
  (∀ x, x ∈ l → P x) → filter P l = l.
Proof.
  induction l as [|a l IH]; intros Hall; [done |].
  rewrite filter_cons_True by (apply Hall; left).
  f_equal. apply IH. intros x Hx. apply Hall. by right.
Qed.

Lemma filter_none {A} (P : A → Prop) `{!∀ x, Decision (P x)} (l : list A) :
  (∀ x, x ∈ l → ¬ P x) → filter P l = [].
Proof.
  induction l as [|a l IH]; intros Hnone; [done |].
  rewrite filter_cons_False by (apply Hnone; left).
  apply IH. intros x Hx. apply Hnone. by right.
Qed.

Lemma dict_get_Some_value {K V} `{EqDecision K} (k : K) (v : V) (d : dict K V) :
  dict_get k d = Some v → v ∈ dict_values d.
Proof.
  intros Hget%dict_get_Some_item. unfold dict_values, dict_items in *.
  apply list_elem_of_fmap. by exists (k, v).
Qed.

Section display_order.
Variable int : string -> option Z.

Local Abbreviation load_mapper := (lcz_utils.load_mapper int).
Local Abbreviation convert_LCZ_num_to_class := (lcz_utils.convert_LCZ_num_to_class int).
Local Abbreviation get_LCZ_order := (lcz_utils.get_LCZ_order int).

(** X6: for codes, the result holds each code once, in the order of the
    table's keys, and it holds exactly the keys of the table that occur in
    the input. *)
Theorem get_LCZ_order_num_codes LCZ file T :
  load_mapper file = Ok T →
  ∃ LCZ_order,
    get_LCZ_order LCZ file "num" = Ok LCZ_order ∧
    NoDup LCZ_order ∧
    LCZ_order `sublist_of` (VInt <$> dict_keys T) ∧
    (∀ x, x ∈ LCZ_order ↔ ∃ n, x = VInt n ∧ n ∈ dict_keys T ∧ VInt n ∈ LCZ).
Proof.
  intros HT. eexists.
  split; [apply (get_LCZ_order_filter int _ _ T _ _ HT (LCZ_ref_of_num T)) |].
  split_and!.
  - apply NoDup_filter, NoDup_fmap_2; [by intros ?? [=] |].
    by eapply load_mapper_NoDup.
  - apply sublist_filter.
  - intros x. rewrite list_elem_of_filter, list_elem_of_fmap. split.
    + intros [[_ Hin] (n & -> & Hn)]. by exists n.
    + intros (n & -> & Hn & Hin). split; [done |]. by exists n.
Qed.

(** X8: more input gives more output and keeps what was there: if every
    value of one input occurs in another, the result for the first is a
    subsequence of the result for the second. *)
Theorem get_LCZ_order_monotone (LCZ1 LCZ2 : Series) file LCZ_kind LCZ_order1 LCZ_order2 :
  (∀ x, x ∈ LCZ1 → x ∈ LCZ2) →
  get_LCZ_order LCZ1 file LCZ_kind = Ok LCZ_order1 →
  get_LCZ_order LCZ2 file LCZ_kind = Ok LCZ_order2 →
  LCZ_order1 `sublist_of` LCZ_order2.
Proof.
  intros Hsub. unfold lcz_utils.get_LCZ_order.
  destruct (load_mapper file) as [T|e]; simpl; [| done].
  destruct (lcz_utils.LCZ_ref_of T LCZ_kind) as [LCZ_ref|]; [| done].
  intros [= <-] [= <-]. apply filter_sublist_impl. intros x _.
  rewrite !Is_true_true, !np_contains_true, !elem_of_unique.
  intros [? ?]. auto.
Qed.

(** X9: when every label of the table occurs in the input, the result for
    labels is the whole list of the table's labels, in table order; and
    likewise for codes. *)
Theorem get_LCZ_order_all_present LCZ file T :
  load_mapper file = Ok T →
  ((∀ l, l ∈ dict_values T → VStr l ∈ LCZ) →
   get_LCZ_order LCZ file "class" = Ok (VStr <$> dict_values T)) ∧
  ((∀ n, n ∈ dict_keys T → VInt n ∈ LCZ) →
   get_LCZ_order LCZ file "num" = Ok (VInt <$> dict_keys T)).
Proof.
  intros HT. split; intros Hall.
  - rewrite (get_LCZ_order_filter int _ _ T _ _ HT (LCZ_ref_of_class T)).
    f_equal. apply filter_all. intros x (l & -> & Hl)%list_elem_of_fmap. auto.
  - rewrite (get_LCZ_order_filter int _ _ T _ _ HT (LCZ_ref_of_num T)).
    f_equal. apply filter_all. intros x (n & -> & Hn)%list_elem_of_fmap. auto.
Qed.

(** X10: a kind that does not match the values raises nothing and selects
    nothing: labels given as codes, or codes given as labels, yield the
    empty list. *)
Theorem get_LCZ_order_kind_mismatch LCZ file T :
  load_mapper file = Ok T →
  ((∀ n, VInt n ∉ LCZ) → get_LCZ_order LCZ file "num" = Ok []) ∧
  ((∀ l, VStr l ∉ LCZ) → get_LCZ_order LCZ file "class" = Ok []).
Proof.
  intros HT. split; intros Hnone.
  - rewrite (get_LCZ_order_filter int _ _ T _ _ HT (LCZ_ref_of_num T)).
    f_equal. apply filter_none. intros x (n & -> & _)%list_elem_of_fmap [_ Hin].
    by apply (Hnone n).
  - rewrite (get_LCZ_order_filter int _ _ T _ _ HT (LCZ_ref_of_class T)).
    f_equal. apply filter_none. intros x (l & -> & _)%list_elem_of_fmap [_ Hin].
    by apply (Hnone l).
Qed.

(** A converted Series holds labels and missing values only, so that the
    object column made of it holds the Series itself. *)
Lemma series_labels_converted T (LCZ_num : Series) :
  (fun o => match o with Some c => VStr c | None => VNaN end)
    <$> series_labels (lcz_utils.Series_map T LCZ_num)
  = lcz_utils.Series_map T LCZ_num.
Proof.
  unfold series_labels, lcz_utils.Series_map.
  rewrite <-!list_fmap_compose. apply list_fmap_ext.
  intros i [n|l|] _; simpl; [| done | done]. by destruct (dict_get n T).
Qed.

(** X11: the two steps of [example.py] in a row: the display order computed
    from the converted column holds exactly the labels that occur in that
    column; the missing values left by unknown codes never enter it. *)
Theorem get_LCZ_order_of_converted (LCZ_num : Series) file T :
  load_mapper file = Ok T →
  ∃ LCZ_class hue_order,
    convert_LCZ_num_to_class LCZ_num file = Ok LCZ_class ∧
    get_LCZ_order LCZ_class file "class" = Ok hue_order ∧
    (∀ x, x ∈ hue_order ↔ x ∈ LCZ_class ∧ x ≠ VNaN) ∧
    (∀ l, VStr l ∈ hue_order ↔
          ∃ n, VInt n ∈ LCZ_num ∧ dict_get n T = Some l).
Proof.
  intros HT. eexists _, _.
  split; [unfold lcz_utils.convert_LCZ_num_to_class; rewrite HT; reflexivity |].
  split; [apply (get_LCZ_order_filter int _ _ T _ _ HT (LCZ_ref_of_class T)) |].
  assert (∀ l, VStr l ∈ lcz_utils.Series_map T LCZ_num ↔
               ∃ n, VInt n ∈ LCZ_num ∧ dict_get n T = Some l) as Hmap.
  { intros l. unfold lcz_utils.Series_map. rewrite list_elem_of_fmap. split.
    - intros ([n| |] & Hx & Hin); try done.
      destruct (dict_get n T) as [c|] eqn:Hn; [| done].
      injection Hx as ->. by exists n.
    - intros (n & Hin & Hn). exists (VInt n). by rewrite Hn. }
  split.
  - intros x. rewrite list_elem_of_filter. split; [tauto |].
    intros [Hin Hx]. split; [done |].
    destruct x as [n|l|]; [| | done].
    + unfold lcz_utils.Series_map in Hin.
      apply list_elem_of_fmap in Hin as ([m| |] & Heq & _); try done.
      by destruct (dict_get m T).
    + apply Hmap in Hin as (n & _ & Hn).
      apply list_elem_of_fmap. exists l. split; [done |].
      by eapply dict_get_Some_value.
  - intros l. rewrite list_elem_of_filter, <-Hmap. split; [tauto |].
    intros Hin. split; [done |].
    apply Hmap in Hin as (n & _ & Hn).
    apply list_elem_of_fmap. exists l. split; [done |].
    by eapply dict_get_Some_value.
Qed.

(** X12: the converted column is free of missing values exactly when every
    value of the input is an integer code that is a key of the table. *)
Theorem convert_LCZ_num_to_class_complete (LCZ_num : Series) file T :
  load_mapper file = Ok T →
  ∃ LCZ_class,
    convert_LCZ_num_to_class LCZ_num file = Ok LCZ_class ∧
    (VNaN ∉ LCZ_class ↔
     Forall (fun x => ∃ n, x = VInt n ∧ n ∈ dict_keys T) LCZ_num).
Proof.
  intros HT. eexists.
  split; [unfold lcz_utils.convert_LCZ_num_to_class; rewrite HT; reflexivity |].
  unfold lcz_utils.Series_map. rewrite Forall_forall. split.
  - intros Hnan x Hin. destruct x as [n|l|].
    + exists n. split; [done |]. apply dict_get_is_Some.
      destruct (dict_get n T) as [c|] eqn:Hn; [done |].
      exfalso. apply Hnan, list_elem_of_fmap. exists (VInt n). by rewrite Hn.
    + exfalso. apply Hnan, list_elem_of_fmap. by exists (VStr l).
    + exfalso. apply Hnan, list_elem_of_fmap. by exists VNaN.
  - intros Hall (x & Hx & Hin)%list_elem_of_fmap.
    destruct (Hall x Hin) as (n & -> & [c Hc]%dict_get_is_Some).
    by rewrite Hc in Hx.
Qed.

End display_order.

(** ** The extremes of the two columns *)

Lemma SFltb_irrefl a : SFltb a a = false.
Proof.
  unfold SFltb, SFcompare. destruct a as [[]|[]| |[] m e]; try done;
    rewrite Z.compare_refl, Pos.compare_cont_refl; done.
Qed.

Lemma ltb_irrefl (x : float) : PrimFloat.ltb x x = false.
Proof. rewrite FloatAxioms.ltb_spec. apply SFltb_irrefl. Qed.

Lemma ltb_asym (x y : float) : PrimFloat.ltb x y = true → PrimFloat.ltb y x = false.
Proof.
  intros Hxy. destruct (PrimFloat.ltb y x) eqn:Hyx; [| done].
  pose proof (ltb_trans x y x Hxy Hyx) as Hxx. by rewrite ltb_irrefl in Hxx.
Qed.

Section extreme.
(** [before a b]: [a] is strictly better than [b]; the reduction keeps the
    first of the best values. *)
Variable before : float -> float -> bool.
Hypothesis before_irrefl : ∀ x, before x x = false.
Hypothesis before_asym : ∀ x y, before x y = true → before y x = false.
Hypothesis before_neg_trans : ∀ x y z,
  PrimFloat.is_nan x = false → PrimFloat.is_nan y = false → PrimFloat.is_nan z = false →
  before x y = false → before y z = false → before x z = false.

Local Abbreviation best := (fun a b : float => if before b a then b else a).

Lemma foldl_best x xs :
  PrimFloat.is_nan x = false → no_nan xs →
  foldl best x xs ∈ x :: xs ∧
  PrimFloat.is_nan (foldl best x xs) = false ∧
  ∀ y, y ∈ x :: xs → before y (foldl best x xs) = false.
Proof.
  intros Hx Hxs. revert x Hx.
  induction Hxs as [|b xs Hb Hxs IH]; intros x Hx; simpl.
  - split; [left |]. split; [done |].
    intros y ->%list_elem_of_singleton. apply before_irrefl.
  - assert (PrimFloat.is_nan (if before b x then b else x) = false) as Hc
      by by destruct (before b x).
    assert (before x (if before b x then b else x) = false ∧
            before b (if before b x then b else x) = false) as [Hxc Hbc].
    { destruct (before b x) eqn:Hbx; split; auto. }
    destruct (IH _ Hc) as (Hin & Hnan & Hlow). split_and!.
    + apply elem_of_cons in Hin as [-> | Hin]; [| by right; right].
      destruct (before b x); [right; left | left].
    + done.
    + intros y [-> | [-> | Hy]%elem_of_cons]%elem_of_cons.
      * eapply before_neg_trans; [| | | exact Hxc | apply Hlow; left]; done.
      * eapply before_neg_trans; [| | | exact Hbc | apply Hlow; left]; done.
      * apply Hlow. by right.
Qed.

Lemma nan_reduce_best xs :
  skipna xs ≠ [] →
  nan_reduce best xs ∈ xs ∧
  PrimFloat.is_nan (nan_reduce best xs) = false ∧
  ∀ y, y ∈ xs → PrimFloat.is_nan y = false → before y (nan_reduce best xs) = false.
Proof.
  intros Hne. unfold nan_reduce.
  pose proof (skipna_no_nan xs) as Hnn.
  assert (∀ y, y ∈ skipna xs ↔ y ∈ xs ∧ PrimFloat.is_nan y = false) as Hskip.
  { intros y. unfold skipna. rewrite !list_elem_of_In, List.filter_In, negb_true_iff.
    done. }
  destruct (skipna xs) as [|x r]; [done |].
  apply Forall_cons in Hnn as [Hx Hr].
  destruct (foldl_best x r Hx Hr) as (Hin & Hnan & Hlow). split_and!.
  - by apply Hskip in Hin as [? _].
  - done.
  - intros y Hy Hynan. apply Hlow, Hskip. done.
Qed.
End extreme.

(** X13: for two columns of numbers that hold at least one value that is
    not missing, the two reductions of [plot_pred_vs_actual] return values
    of the columns that are not missing, and no value of either column lies
    below the first or above the second. *)
Theorem frame_reduce_extremes (df : DataFrame) col_actual col_pred actual predicted :
  dict_get col_actual df = Some (Numeric actual) →
  dict_get col_pred df = Some (Numeric predicted) →
  skipna (actual ++ predicted) ≠ [] →
  ∃ x_min x_max,
    plot_utils.frame_min df col_actual col_pred = Ok (SFloat x_min) ∧
    plot_utils.frame_max df col_actual col_pred = Ok (SFloat x_max) ∧
    x_min ∈ actual ++ predicted ∧ x_max ∈ actual ++ predicted ∧
    PrimFloat.is_nan x_min = false ∧ PrimFloat.is_nan x_max = false ∧
    ∀ y, y ∈ actual ++ predicted → PrimFloat.is_nan y = false →
         PrimFloat.ltb y x_min = false ∧ PrimFloat.ltb x_max y = false.
Proof.
  intros Hactual Hpred Hsome.
  exists (nanmin (actual ++ predicted)), (nanmax (actual ++ predicted)).
  split; [by apply frame_min_float |]. split; [by apply frame_max_float |].
  destruct (nan_reduce_best PrimFloat.ltb ltb_irrefl ltb_asym ltb_neg_trans
              (actual ++ predicted) Hsome) as (Hmin & Hminnan & Hlow).
  destruct (nan_reduce_best (fun u v => PrimFloat.ltb v u)
              ltb_irrefl (fun x y => ltb_asym y x)
              (fun x y z Hx Hy Hz Hxy Hyz => ltb_neg_trans z y x Hz Hy Hx Hyz Hxy)
              (actual ++ predicted) Hsome) as (Hmax & Hmaxnan & Hhigh).
  split; [exact Hmin |]. split; [exact Hmax |].
  split; [exact Hminnan |]. split; [exact Hmaxnan |].
  intros y Hy Hnan. split; [by apply Hlow | by apply Hhigh].
Qed.

(** ** The calls of the plotter *)

Section plotter_calls.
Variable format_3f : float -> string.
Variable scatterplot :
  DataFrame -> string -> string -> option string ->
  option (list value) -> option (dict string string) -> result unit.

Local Abbreviation plot_pred_vs_actual :=
  (plot_utils.plot_pred_vs_actual format_3f scatterplot).

(** The paths of [plot_pred_vs_actual], by its flags as well. *)
Ltac plot_cases use_hue print_scores scores :=
  destruct use_hue; plot_paths scatterplot;
  destruct print_scores, scores as [?|]; simpl.

(** X14: whatever happens inside, the first call sets the configuration
    and the last call restores it; and the chart is shown exactly when the
    function returns without raising. *)
Theorem plot_pred_vs_actual_bracket
    df col_actual col_pred col_hue hue_title_fancy hue_order hue_palette
    target_title_fancy target_units_title_fancy scores
    (use_hue print_scores : bool) :
  head (run (plot_pred_vs_actual df col_actual col_pred col_hue hue_title_fancy
               hue_order hue_palette target_title_fancy target_units_title_fancy
               scores use_hue print_scores)).2 = Some rc_context_enter ∧
  last (run (plot_pred_vs_actual df col_actual col_pred col_hue hue_title_fancy
               hue_order hue_palette target_title_fancy target_units_title_fancy
               scores use_hue print_scores)).2 = Some rc_context_exit ∧
  ((run (plot_pred_vs_actual df col_actual col_pred col_hue hue_title_fancy
           hue_order hue_palette target_title_fancy target_units_title_fancy
           scores use_hue print_scores)).1 = Ok tt ↔
   plt_show ∈
     (run (plot_pred_vs_actual df col_actual col_pred col_hue hue_title_fancy
             hue_order hue_palette target_title_fancy target_units_title_fancy
             scores use_hue print_scores)).2).
Proof.
  plot_cases use_hue print_scores scores;
    (split; [reflexivity |]; split; [reflexivity |]; split;
     [ try discriminate; intros _; repeat first [by left | right]
     | try done; intros Hin; trace_member Hin ]).
Qed.

(** X15: the scatter plot gets the frame and the two columns as given, and
    with [use_hue] set also the hue column, the hue order and the palette as
    given; a legend is requested exactly when [use_hue] is set and nothing
    raised, and its title is [hue_title_fancy]. *)
Theorem plot_pred_vs_actual_hue
    df col_actual col_pred col_hue hue_title_fancy hue_order hue_palette
    target_title_fancy target_units_title_fancy scores
    (use_hue print_scores : bool) :
  (∀ data x y hue order palette,
     sns_scatterplot data x y hue order palette ∈
       (run (plot_pred_vs_actual df col_actual col_pred col_hue hue_title_fancy
               hue_order hue_palette target_title_fancy target_units_title_fancy
               scores use_hue print_scores)).2 →
     data = df ∧ x = col_actual ∧ y = col_pred ∧
     (use_hue = true → hue = col_hue ∧ order = hue_order ∧ palette = hue_palette)) ∧
  (∀ title,
     plt_legend title ∈
       (run (plot_pred_vs_actual df col_actual col_pred col_hue hue_title_fancy
               hue_order hue_palette target_title_fancy target_units_title_fancy
               scores use_hue print_scores)).2 ↔
     use_hue = true ∧ title = hue_title_fancy ∧
     (run (plot_pred_vs_actual df col_actual col_pred col_hue hue_title_fancy
             hue_order hue_palette target_title_fancy target_units_title_fancy
             scores use_hue print_scores)).1 = Ok tt).
Proof.
  plot_cases use_hue print_scores scores;
    (split;
     [ intros data x y hue order palette Hin; trace_member Hin;
       injection Hin as -> -> -> -> -> ->; by repeat split
     | intros title; split;
       [ intros Hin; trace_member Hin; injection Hin as ->; by repeat split
       | intros (Hhue & -> & Hok); try discriminate Hhue; try discriminate Hok;
         repeat first [by left | right] ] ]).
Qed.

(** X16: a text with the scores is written exactly when [print_scores] is
    set, scores are given and the scatter plot was drawn; the text is then
    the one of [scores_text]. *)
Theorem plot_pred_vs_actual_scores
    df col_actual col_pred col_hue hue_title_fancy hue_order hue_palette
    target_title_fancy target_units_title_fancy scores
    (use_hue print_scores : bool) :
  ∀ s,
    ax_text s ∈
      (run (plot_pred_vs_actual df col_actual col_pred col_hue hue_title_fancy
              hue_order hue_palette target_title_fancy target_units_title_fancy
              scores use_hue print_scores)).2 ↔
    print_scores = true ∧
    (∃ sc, scores = Some sc ∧ s = plot_utils.scores_text format_3f sc) ∧
    scatterplot df col_actual col_pred
      (if use_hue then col_hue else None)
      (if use_hue then hue_order else None)
      (if use_hue then hue_palette else None) = Ok tt.
Proof.
  plot_cases use_hue print_scores scores;
    (intros s; split;
     [ intros Hin; trace_member Hin; injection Hin as ->; by eauto
     | intros (Hps & (sc & Hsc & ->) & Hok);
       try discriminate Hps; try discriminate Hsc; try discriminate Hok;
       injection Hsc as ->; repeat first [by left | right] ]).
Qed.

(** X17: the scores and [print_scores] decide the text call and nothing
    else: with that call left out, the calls and the outcome are the same
    for any two choices of them. *)
Theorem plot_pred_vs_actual_scores_only_text
    df col_actual col_pred col_hue hue_title_fancy hue_order hue_palette
    target_title_fancy target_units_title_fancy
    scores scores' (use_hue print_scores print_scores' : bool) :
  (run (plot_pred_vs_actual df col_actual col_pred col_hue hue_title_fancy
          hue_order hue_palette target_title_fancy target_units_title_fancy
          scores use_hue print_scores)).1
  = (run (plot_pred_vs_actual df col_actual col_pred col_hue hue_title_fancy
            hue_order hue_palette target_title_fancy target_units_title_fancy
            scores' use_hue print_scores')).1 ∧
  List.filter (fun c => negb (is_ax_text c))
    (run (plot_pred_vs_actual df col_actual col_pred col_hue hue_title_fancy
            hue_order hue_palette target_title_fancy target_units_title_fancy
            scores use_hue print_scores)).2
  = List.filter (fun c => negb (is_ax_text c))
      (run (plot_pred_vs_actual df col_actual col_pred col_hue hue_title_fancy
              hue_order hue_palette target_title_fancy target_units_title_fancy
              scores' use_hue print_scores')).2.
Proof.
  plot_cases use_hue print_scores scores;
    destruct print_scores', scores' as [?|]; split; reflexivity.
Qed.

(** X18: when neither column holds a value that is not missing (a frame
    without rows is the plain case) and the scatter plot was drawn, the
    bounds are NaN, the x axis refuses them and the function raises
    [ValueError]: no limits are applied to either axis and nothing is
    shown. *)
Theorem plot_pred_vs_actual_no_values
    df col_actual col_pred col_hue hue_title_fancy hue_order hue_palette
    target_title_fancy target_units_title_fancy scores
    (use_hue print_scores : bool) actual predicted :
  dict_get col_actual df = Some (Numeric actual) →
  dict_get col_pred df = Some (Numeric predicted) →
  skipna actual = [] → skipna predicted = [] →
  scatterplot df col_actual col_pred
    (if use_hue then col_hue else None)
    (if use_hue then hue_order else None)
    (if use_hue then hue_palette else None) = Ok tt →
  (run (plot_pred_vs_actual df col_actual col_pred col_hue hue_title_fancy
          hue_order hue_palette target_title_fancy target_units_title_fancy
          scores use_hue print_scores)).1 = Raise ValueError ∧
  (∀ low high,
     (ax_set_xlim low high ∉
        (run (plot_pred_vs_actual df col_actual col_pred col_hue hue_title_fancy
                hue_order hue_palette target_title_fancy target_units_title_fancy
                scores use_hue print_scores)).2) ∧
     (ax_set_ylim low high ∉
        (run (plot_pred_vs_actual df col_actual col_pred col_hue hue_title_fancy
                hue_order hue_palette target_title_fancy target_units_title_fancy
                scores use_hue print_scores)).2)) ∧
  plt_show ∉
    (run (plot_pred_vs_actual df col_actual col_pred col_hue hue_title_fancy
            hue_order hue_palette target_title_fancy target_units_title_fancy
            scores use_hue print_scores)).2.
Proof.
  intros Hactual Hpred Hna Hnp Hdrawn.
  unfold run, plot_utils.plot_pred_vs_actual, with_rc_context.
  unfold mbind, Render_bind, issue, lift, mret, Render_ret.
  rewrite Hdrawn.
  rewrite (frame_min_float _ _ _ _ _ Hactual Hpred).
  rewrite (frame_max_float _ _ _ _ _ Hactual Hpred).
  unfold nanmin, nanmax, nan_reduce. rewrite skipna_app, Hna, Hnp.
  cbv beta iota zeta.
  match goal with
  | |- context [validate_limits ?a ?b] =>
      change (validate_limits a b) with (@Raise unit ValueError)
  end.
  destruct print_scores, scores as [sc|]; simpl;
    (split; [reflexivity |]; split;
     [ intros low high; split; intros Hin; trace_member Hin
     | intros Hin; trace_member Hin ]).
Qed.

End plotter_calls.

(** ** The script *)

Section script.
Variable int : string -> option Z.
Variable format_3f : float -> string.
Variable scatterplot :
  DataFrame -> string -> string -> option string ->
  option (list value) -> option (dict string string) -> result unit.

Local Abbreviation main := (example.main int format_3f scatterplot).

(** X19: when the mapper or, the mapper being read, the palette cannot be
    loaded, the script raises the exception of the loading and has made no
    call to the charting libraries: nothing is drawn. *)
Theorem example_resource_failure mapper_json palette_json e :
  lcz_utils.load_mapper int mapper_json = Raise e ∨
  ((∃ T, lcz_utils.load_mapper int mapper_json = Ok T) ∧
   lcz_utils.load_LCZ_class_palette palette_json = Raise e) →
  run (main mapper_json palette_json) = (Raise e, []).
Proof.
  unfold run, example.main, lcz_utils.convert_LCZ_num_to_class.
  unfold mbind at 1 2, Render_bind, lift.
  intros [He | [[T HT] He]].
  - by rewrite He.
  - rewrite HT. simpl. by rewrite He.
Qed.

(** With both resources loaded the script is one call of
    [plot_pred_vs_actual] on the frame with its converted column. *)
Lemma example_main_plots mapper_json palette_json T palette :
  lcz_utils.load_mapper int mapper_json = Ok T →
  lcz_utils.load_LCZ_class_palette palette_json = Ok palette →
  run (main mapper_json palette_json) =
  run (plot_utils.plot_pred_vs_actual format_3f scatterplot
         (dict_set "LCZ"
            (Labels (series_labels (lcz_utils.Series_map T example.LCZ_codes)))
            example.data)
         "y_actual" "y_pred" (Some "LCZ") (Some "$\mathrm{LCZ-Majority}$")
         (Some (filter (fun x => np_contains x
                          (unique (lcz_utils.Series_map T example.LCZ_codes)))
                  (VStr <$> dict_values T)))
         (Some palette) "" "" (Some example.scores) true true).
Proof.
  intros HT Hpalette.
  unfold run, example.main, lcz_utils.convert_LCZ_num_to_class,
    lcz_utils.get_LCZ_order.
  unfold mbind at 1 2 3 4 5, Render_bind, lift. rewrite HT. simpl.
  rewrite Hpalette. reflexivity.
Qed.

Lemma example_frame_extremes (c : column) :
  plot_utils.frame_min (dict_set "LCZ" c example.data) "y_actual" "y_pred"
    = Ok (SInt 284) ∧
  plot_utils.frame_max (dict_set "LCZ" c example.data) "y_actual" "y_pred"
    = Ok (SInt 310).
Proof. split; vm_compute; reflexivity. Qed.

Lemma example_bounds :
  (to_float (SInt 284) - 0.05 * to_float (scalar_sub (SInt 310) (SInt 284)))%float
    = 282.7%float ∧
  (to_float (SInt 310) + 0.05 * to_float (scalar_sub (SInt 310) (SInt 284)))%float
    = 311.3%float ∧
  validate_limits 282.7 311.3 = Ok tt.
Proof. split_and!; vm_compute; reflexivity. Qed.

(** X20: when both resources load and the script returns without raising,
    it has asked for the limits [282.7, 311.3] on both axes, the range
    [284, 310] of its data widened by 5% on each side, and for a legend
    titled LCZ-Majority. *)
Theorem example_completes mapper_json palette_json T palette :
  lcz_utils.load_mapper int mapper_json = Ok T →
  lcz_utils.load_LCZ_class_palette palette_json = Ok palette →
  (run (main mapper_json palette_json)).1 = Ok tt →
  ax_set_xlim 282.7 311.3 ∈ (run (main mapper_json palette_json)).2 ∧
  ax_set_ylim 282.7 311.3 ∈ (run (main mapper_json palette_json)).2 ∧
  plt_legend (Some "$\mathrm{LCZ-Majority}$") ∈ (run (main mapper_json palette_json)).2.
Proof.
  intros HT Hpalette.
  rewrite (example_main_plots _ _ _ _ HT Hpalette).
  unfold run, plot_utils.plot_pred_vs_actual, with_rc_context.
  unfold mbind, Render_bind, issue, lift, mret, Render_ret.
  match goal with
  | |- context [scatterplot ?d ?x ?y ?h ?o ?p] =>
      destruct (scatterplot d x y h o p) as [[]|?]
  end; [| discriminate].
  destruct (example_frame_extremes
              (Labels (series_labels (lcz_utils.Series_map T example.LCZ_codes))))
    as [-> ->].
  cbv beta iota zeta.
  destruct example_bounds as (-> & -> & ->).
  intros _. split_and!; cbn [app snd]; repeat first [by left | right].
Qed.

End script.

(** * The further properties at concrete inputs *)

(** The Series of codes that the script converts is its column of codes. *)
Example example_codes_column :
  dict_get "LCZ" example.data
    = Some (Int64 [100100; 100123; 110200; 100123; 100456; 100456; 110700; 110200]) ∧
  example.LCZ_codes
    = VInt <$> [100100; 100123; 110200; 100123; 100456; 100456; 110700; 110200].
Proof. split; reflexivity. Qed.

Lemma load_mapper_table_witness :
  lcz_utils.load_mapper decimal_int (JSONObject [("1", "A"); ("2", "B"); ("3", "C")])
    = Ok abc_table ∧
  NoDup (dict_keys abc_table) ∧
  (∀ n, n ∈ dict_keys abc_table ↔
        ∃ k, k ∈ [("1", "A"); ("2", "B"); ("3", "C")].*1 ∧ decimal_int k = Some n) ∧
  (∀ l, l ∈ dict_values abc_table → l ∈ [("1", "A"); ("2", "B"); ("3", "C")].*2).
Proof.
  split; [reflexivity |].
  apply (load_mapper_table decimal_int [("1", "A"); ("2", "B"); ("3", "C")] abc_table).
  reflexivity.
Defined.

Lemma load_mapper_round_trip_witness :
  NoDup (dict_keys abc_table) ∧
  (∀ n, n ∈ dict_keys abc_table → decimal_int (decimal_text n) = Some n) ∧
  lcz_utils.load_mapper decimal_int
    (JSONObject ((fun kv => (decimal_text kv.1, kv.2)) <$> abc_table)) = Ok abc_table.
Proof.
  assert (NoDup (dict_keys abc_table)) as Hnd.
  { repeat (apply NoDup_cons_2; [intros Hin; trace_member Hin |]). apply NoDup_nil_2. }
  assert (∀ n, n ∈ dict_keys abc_table → decimal_int (decimal_text n) = Some n) as Hint.
  { intros n Hin.
    repeat (apply elem_of_cons in Hin as [-> | Hin]; [reflexivity |]).
    by apply elem_of_nil in Hin. }
  split; [exact Hnd |]. split; [exact Hint |].
  apply (load_mapper_round_trip decimal_int decimal_text abc_table Hnd Hint).
Defined.

Lemma mapper_errors_pass_through_witness :
  lcz_utils.load_mapper decimal_int NoSuchFile = Raise FileNotFoundError ∧
  lcz_utils.convert_LCZ_num_to_class decimal_int [VInt 1] NoSuchFile
    = Raise FileNotFoundError ∧
  lcz_utils.get_LCZ_order decimal_int [VInt 1] NoSuchFile "classes"
    = Raise FileNotFoundError ∧
  (NoSuchFile = NoSuchFile → FileNotFoundError = FileNotFoundError) ∧
  (NoSuchFile = NotJSON → FileNotFoundError = JSONDecodeError).
Proof.
  split; [reflexivity |].
  apply (mapper_errors_pass_through decimal_int [VInt 1] NoSuchFile "classes"
           FileNotFoundError).
  reflexivity.
Defined.

Lemma get_LCZ_order_num_codes_witness :
  lcz_utils.load_mapper decimal_int abc_file = Ok abc_table ∧
  ∃ LCZ_order,
    lcz_utils.get_LCZ_order decimal_int [VInt 3; VInt 1; VInt 3; VInt 9] abc_file "num"
      = Ok LCZ_order ∧
    NoDup LCZ_order ∧
    LCZ_order `sublist_of` (VInt <$> dict_keys abc_table) ∧
    (∀ x, x ∈ LCZ_order ↔
          ∃ n, x = VInt n ∧ n ∈ dict_keys abc_table ∧
               VInt n ∈ [VInt 3; VInt 1; VInt 3; VInt 9]).
Proof.
  split; [reflexivity |].
  apply (get_LCZ_order_num_codes decimal_int [VInt 3; VInt 1; VInt 3; VInt 9]
           abc_file abc_table).
  reflexivity.
Defined.

Lemma get_LCZ_order_class_subsequence_witness :
  lcz_utils.load_mapper decimal_int abc_file = Ok abc_table ∧
  ∃ LCZ_order,
    lcz_utils.get_LCZ_order decimal_int [VStr "C"; VStr "A"; VStr "C"] abc_file "class"
      = Ok LCZ_order ∧
    LCZ_order `sublist_of` (VStr <$> dict_values abc_table) ∧
    (∀ x, x ∈ LCZ_order ↔
          x ∈ (VStr <$> dict_values abc_table) ∧ x ∈ [VStr "C"; VStr "A"; VStr "C"]) ∧
    (NoDup (dict_values abc_table) → NoDup LCZ_order).
Proof.
  split; [reflexivity |].
  apply (get_LCZ_order_class_subsequence decimal_int [VStr "C"; VStr "A"; VStr "C"]
           abc_file abc_table).
  reflexivity.
Defined.

Lemma get_LCZ_order_monotone_witness :
  (∀ x, x ∈ [VStr "B"] → x ∈ [VStr "C"; VStr "B"]) ∧
  lcz_utils.get_LCZ_order decimal_int [VStr "B"] abc_file "class" = Ok [VStr "B"] ∧
  lcz_utils.get_LCZ_order decimal_int [VStr "C"; VStr "B"] abc_file "class"
    = Ok [VStr "B"; VStr "C"] ∧
  [VStr "B"] `sublist_of` [VStr "B"; VStr "C"].
Proof.
  assert (∀ x, x ∈ [VStr "B"] → x ∈ [VStr "C"; VStr "B"]) as Hsub.
  { intros x ->%list_elem_of_singleton. right. left. }
  split; [exact Hsub |]. split; [reflexivity |]. split; [reflexivity |].
  apply (get_LCZ_order_monotone decimal_int [VStr "B"] [VStr "C"; VStr "B"]
           abc_file "class" [VStr "B"] [VStr "B"; VStr "C"] Hsub);
    reflexivity.
Defined.

Lemma get_LCZ_order_all_present_witness :
  lcz_utils.load_mapper decimal_int abc_file = Ok abc_table ∧
  (∀ l, l ∈ dict_values abc_table → VStr l ∈ [VStr "C"; VStr "B"; VStr "A"]) ∧
  lcz_utils.get_LCZ_order decimal_int [VStr "C"; VStr "B"; VStr "A"] abc_file "class"
    = Ok (VStr <$> dict_values abc_table).
Proof.
  assert (∀ l, l ∈ dict_values abc_table → VStr l ∈ [VStr "C"; VStr "B"; VStr "A"])
    as Hall.
  { intros l Hin.
    repeat (apply elem_of_cons in Hin as [-> | Hin];
            [repeat first [by left | right] |]).
    by apply elem_of_nil in Hin. }
  split; [reflexivity |]. split; [exact Hall |].
  apply (proj1 (get_LCZ_order_all_present decimal_int [VStr "C"; VStr "B"; VStr "A"]
                  abc_file abc_table eq_refl)).
  exact Hall.
Defined.

Lemma get_LCZ_order_kind_mismatch_witness :
  lcz_utils.load_mapper decimal_int abc_file = Ok abc_table ∧
  (∀ n, VInt n ∉ [VStr "A"; VStr "B"]) ∧
  lcz_utils.get_LCZ_order decimal_int [VStr "A"; VStr "B"] abc_file "num" = Ok [].
Proof.
  assert (∀ n, VInt n ∉ [VStr "A"; VStr "B"]) as Hnone.
  { intros n Hin. trace_member Hin. }
  split; [reflexivity |]. split; [exact Hnone |].
  apply (proj1 (get_LCZ_order_kind_mismatch decimal_int [VStr "A"; VStr "B"]
                  abc_file abc_table eq_refl)).
  exact Hnone.
Defined.

Lemma get_LCZ_order_of_converted_witness :
  lcz_utils.load_mapper decimal_int abc_file = Ok abc_table ∧
  ∃ LCZ_class hue_order,
    lcz_utils.convert_LCZ_num_to_class decimal_int [VInt 2; VInt 7; VInt 1] abc_file
      = Ok LCZ_class ∧
    lcz_utils.get_LCZ_order decimal_int LCZ_class abc_file "class" = Ok hue_order ∧
    (∀ x, x ∈ hue_order ↔ x ∈ LCZ_class ∧ x ≠ VNaN) ∧
    (∀ l, VStr l ∈ hue_order ↔
          ∃ n, VInt n ∈ [VInt 2; VInt 7; VInt 1] ∧ dict_get n abc_table = Some l).
Proof.
  split; [reflexivity |].
  apply (get_LCZ_order_of_converted decimal_int [VInt 2; VInt 7; VInt 1]
           abc_file abc_table).
  reflexivity.
Defined.

Lemma convert_LCZ_num_to_class_complete_witness :
  lcz_utils.load_mapper decimal_int abc_file = Ok abc_table ∧
  ∃ LCZ_class,
    lcz_utils.convert_LCZ_num_to_class decimal_int [VInt 2; VInt 7; VInt 1] abc_file
      = Ok LCZ_class ∧
    (VNaN ∉ LCZ_class ↔
     Forall (fun x => ∃ n, x = VInt n ∧ n ∈ dict_keys abc_table)
       [VInt 2; VInt 7; VInt 1]).
Proof.
  split; [reflexivity |].
  apply (convert_LCZ_num_to_class_complete decimal_int [VInt 2; VInt 7; VInt 1]
           abc_file abc_table).
  reflexivity.
Defined.

Lemma frame_reduce_extremes_witness :
  dict_get "y_actual" example_df = Some (Numeric [100; 200; 310]%float) ∧
  dict_get "y_pred" example_df = Some (Numeric [120; 250; 300]%float) ∧
  skipna ([100; 200; 310] ++ [120; 250; 300])%float ≠ [] ∧
  ∃ x_min x_max,
    plot_utils.frame_min example_df "y_actual" "y_pred" = Ok (SFloat x_min) ∧
    plot_utils.frame_max example_df "y_actual" "y_pred" = Ok (SFloat x_max) ∧
    x_min ∈ ([100; 200; 310] ++ [120; 250; 300])%float ∧
    x_max ∈ ([100; 200; 310] ++ [120; 250; 300])%float ∧
    PrimFloat.is_nan x_min = false ∧ PrimFloat.is_nan x_max = false ∧
    ∀ y, y ∈ ([100; 200; 310] ++ [120; 250; 300])%float →
         PrimFloat.is_nan y = false →
         PrimFloat.ltb y x_min = false ∧ PrimFloat.ltb x_max y = false.
Proof.
  assert (skipna ([100; 200; 310] ++ [120; 250; 300])%float ≠ []) as Hsome.
  { intros Hnil. vm_compute in Hnil. discriminate Hnil. }
  split; [reflexivity |]. split; [reflexivity |]. split; [exact Hsome |].
  apply (frame_reduce_extremes example_df "y_actual" "y_pred"
           [100; 200; 310]%float [120; 250; 300]%float);
    [reflexivity | reflexivity | exact Hsome].
Defined.

Lemma plot_pred_vs_actual_no_values_witness :
  dict_get "y_actual" df_without_rows = Some (Numeric []) ∧
  dict_get "y_pred" df_without_rows = Some (Numeric []) ∧
  skipna [] = [] ∧
  scatterplot_checking_columns df_without_rows "y_actual" "y_pred" None None None
    = Ok tt ∧
  (run (plot_utils.plot_pred_vs_actual (fun _ => "") scatterplot_checking_columns
          df_without_rows "y_actual" "y_pred" None None None None
          "" "" None false true)).1 = Raise ValueError ∧
  (∀ low high,
     (ax_set_xlim low high ∉
        (run (plot_utils.plot_pred_vs_actual (fun _ => "") scatterplot_checking_columns
                df_without_rows "y_actual" "y_pred" None None None None
                "" "" None false true)).2) ∧
     (ax_set_ylim low high ∉
        (run (plot_utils.plot_pred_vs_actual (fun _ => "") scatterplot_checking_columns
                df_without_rows "y_actual" "y_pred" None None None None
                "" "" None false true)).2)) ∧
  plt_show ∉
    (run (plot_utils.plot_pred_vs_actual (fun _ => "") scatterplot_checking_columns
            df_without_rows "y_actual" "y_pred" None None None None
            "" "" None false true)).2.
Proof.
  split; [reflexivity |]. split; [reflexivity |]. split; [reflexivity |].
  split; [reflexivity |].
  apply (plot_pred_vs_actual_no_values (fun _ => "") scatterplot_checking_columns
           df_without_rows "y_actual" "y_pred" None None None None
           "" "" None false true [] []);
    reflexivity.
Defined.

Lemma example_resource_failure_witness :
  (lcz_utils.load_mapper decimal_int NoSuchFile = Raise FileNotFoundError ∨
   ((∃ T, lcz_utils.load_mapper decimal_int NoSuchFile = Ok T) ∧
    lcz_utils.load_LCZ_class_palette (JSONObject []) = Raise FileNotFoundError)) ∧
  run (example.main decimal_int (fun _ => "") scatterplot_checking_columns
         NoSuchFile (JSONObject []))
  = (Raise FileNotFoundError, []).
Proof.
  split; [left; reflexivity |].
  apply (example_resource_failure decimal_int (fun _ => "") scatterplot_checking_columns
           NoSuchFile (JSONObject []) FileNotFoundError).
  left; reflexivity.
Defined.

Lemma example_completes_witness :
  lcz_utils.load_mapper decimal_int abc_file = Ok abc_table ∧
  lcz_utils.load_LCZ_class_palette (JSONObject [("A", "#ff0000")])
    = Ok [("A", "#ff0000")] ∧
  (run (example.main decimal_int (fun _ => "") scatterplot_checking_columns
          abc_file (JSONObject [("A", "#ff0000")]))).1 = Ok tt ∧
  ax_set_xlim 282.7 311.3 ∈
    (run (example.main decimal_int (fun _ => "") scatterplot_checking_columns
            abc_file (JSONObject [("A", "#ff0000")]))).2 ∧
  ax_set_ylim 282.7 311.3 ∈
    (run (example.main decimal_int (fun _ => "") scatterplot_checking_columns
            abc_file (JSONObject [("A", "#ff0000")]))).2 ∧
  plt_legend (Some "$\mathrm{LCZ-Majority}$") ∈
    (run (example.main decimal_int (fun _ => "") scatterplot_checking_columns
            abc_file (JSONObject [("A", "#ff0000")]))).2.
Proof.
  split; [reflexivity |]. split; [reflexivity |].
  split; [vm_compute; reflexivity |].
  apply (example_completes decimal_int (fun _ => "") scatterplot_checking_columns
           abc_file (JSONObject [("A", "#ff0000")]) abc_table [("A", "#ff0000")]);
    [reflexivity | reflexivity | vm_compute; reflexivity].
Defined.
